(** * Hospital management: booking validator, availability registry and
      appointment ledger

    A shallow embedding of the request handlers of
    [controllers/control_auth.py] that read or write the appointment ledger
    and the availability registry, together with the pieces of the Python
    runtime they rely on ([str.strip], [int], [datetime.strptime], [date]
    ordering and [date + timedelta]).

    Conventions of the model:
    - strings are byte strings; only ASCII input is modelled;
    - a table is the list of its rows in the order in which the store
      returns them, so that [query.first()] is [List.find];
    - [db.session.commit()] either succeeds or raises; the handlers take the
      outcome as a boolean argument [commit_ok];
    - the clock ([datetime.utcnow().date()]) is an argument [today]. *)

From Stdlib Require Import ZArith List String Ascii Bool Lia.
Import ListNotations.

Local Open Scope string_scope.
Local Open Scope list_scope.
Local Open Scope Z_scope.

(** ** Python runtime *)

Module Py.

(** [str.isspace] on one ASCII character: TAB..CR, FS..US and SPACE. *)
Definition is_space (c : ascii) : bool :=
  let n := Z.of_N (N_of_ascii c) in
  ((9 <=? n) && (n <=? 13)) || ((28 <=? n) && (n <=? 32)).

Fixpoint lstrip (s : string) : string :=
  match s with
  | EmptyString => EmptyString
  | String c r => if is_space c then lstrip r else s
  end.

Fixpoint rstrip (s : string) : string :=
  match s with
  | EmptyString => EmptyString
  | String c r =>
      let r' := rstrip r in
      if is_space c && (r' =? "")%string then EmptyString else String c r'
  end.

(** [s.strip()] *)
Definition strip (s : string) : string := rstrip (lstrip s).

(** Truth value of a string: [not s] holds exactly for the empty string. *)
Definition truthy (s : string) : bool := negb (s =? "")%string.

(** [a < b] and [a > b] on [str]: lexicographic on code points. *)
Definition str_lt (a b : string) : bool := String.ltb a b.
Definition str_gt (a b : string) : bool := String.ltb b a.

Definition digit_val (c : ascii) : option Z :=
  let n := Z.of_N (N_of_ascii c) in
  if (48 <=? n) && (n <=? 57) then Some (n - 48) else None.

(** *** [int(s)] on an ASCII string

    [int] skips the white space of C ([isspace]: TAB..CR and SPACE; not
    FS..US, which [str.strip] does take off), reads an optional sign, then
    digits with single underscores allowed between two digits, and raises
    [ValueError] when there are more than [sys.int_info.default_max_str_digits]
    digits.  Outside ASCII, [int] also reads the decimal digits and the
    blanks of Unicode; these are not modelled, and [int] below is [None] on
    them. *)

Definition is_ascii_char (c : ascii) : bool := (N_of_ascii c <? 128)%N.

Fixpoint is_ascii (s : string) : bool :=
  match s with
  | EmptyString => true
  | String c r => is_ascii_char c && is_ascii r
  end.

Definition is_cspace (c : ascii) : bool :=
  let n := Z.of_N (N_of_ascii c) in
  ((9 <=? n) && (n <=? 13)) || (n =? 32).

Fixpoint lstrip_c (s : string) : string :=
  match s with
  | EmptyString => EmptyString
  | String c r => if is_cspace c then lstrip_c r else s
  end.

Fixpoint rstrip_c (s : string) : string :=
  match s with
  | EmptyString => EmptyString
  | String c r =>
      let r' := rstrip_c r in
      if is_cspace c && (r' =? "")%string then EmptyString else String c r'
  end.

Definition strip_c (s : string) : string := rstrip_c (lstrip_c s).

(** An optional sign in front of what [p] reads. *)
Definition signed (p : string -> option Z) (s : string) : option Z :=
  match s with
  | EmptyString => p s
  | String c r =>
      if Ascii.eqb c "+" then p r
      else if Ascii.eqb c "-" then option_map Z.opp (p r)
      else p s
  end.

(** Digits only: one or more. *)
Fixpoint digits_acc (acc : Z) (s : string) : option Z :=
  match s with
  | EmptyString => Some acc
  | String c r =>
      match digit_val c with
      | Some d => digits_acc (10 * acc + d) r
      | None => None
      end
  end.

Definition digits (s : string) : option Z :=
  match s with
  | EmptyString => None
  | _ => digits_acc 0 s
  end.

(** Digits with single underscores between them; [after_digit] says
    whether the character before was a digit, [count] is the number of
    digits read. *)
Fixpoint int_digits (acc : Z) (count : nat) (after_digit : bool) (s : string)
  : option (Z * nat) :=
  match s with
  | EmptyString => if after_digit then Some (acc, count) else None
  | String c r =>
      if Ascii.eqb c "_"
      then if after_digit then int_digits acc count false r else None
      else
        match digit_val c with
        | Some d => int_digits (10 * acc + d) (S count) true r
        | None => None
        end
  end.

Definition MAX_STR_DIGITS : nat := 4300.

Definition int_literal (s : string) : option Z :=
  match int_digits 0 0 false s with
  | Some (v, count) =>
      if (count <=? MAX_STR_DIGITS)%nat then Some v else None
  | None => None
  end.

(** [int(s)]; [None] is [ValueError]. *)
Definition int (s : string) : option Z := signed int_literal (strip_c s).

Fixpoint has_underscore (s : string) : bool :=
  match s with
  | EmptyString => false
  | String c r => Ascii.eqb c "_" || has_underscore r
  end.

(** *** The regular expressions of [_strptime]

    A matcher returns every way of matching a prefix of the input, in the
    order in which the backtracking engine tries them, each with the value
    read and the rest of the input. *)

Definition matcher (A : Type) : Type := string -> list (A * string).

Definition m_ret {A} (a : A) : matcher A := fun s => [(a, s)].

Definition m_bind {A B} (m : matcher A) (k : A -> matcher B) : matcher B :=
  fun s => flat_map (fun '(a, r) => k a r) (m s).

Definition m_alt {A} (ms : list (matcher A)) : matcher A :=
  fun s => flat_map (fun m => m s) ms.

Notation "x <- m ;; k" := (m_bind m (fun x => k))
  (at level 61, m at next level, right associativity).

(** One digit in the class [[lo-hi]]. *)
Definition m_range (lo hi : Z) : matcher Z :=
  fun s =>
    match s with
    | EmptyString => []
    | String c r =>
        match digit_val c with
        | Some d => if (lo <=? d) && (d <=? hi) then [(d, r)] else []
        | None => []
        end
    end.

(** [\d] *)
Definition m_digit : matcher Z := m_range 0 9.

(** A literal character. *)
Definition m_lit (c : ascii) : matcher unit :=
  fun s =>
    match s with
    | EmptyString => []
    | String c' r => if Ascii.eqb c c' then [(tt, r)] else []
    end.

(** Two digit classes in a row, read as a two-digit number. *)
Definition m_two (a b : matcher Z) : matcher Z :=
  x <- a ;; y <- b ;; m_ret (10 * x + y).

(** [%Y]: [\d\d\d\d] *)
Definition re_Y : matcher Z :=
  a <- m_digit ;; b <- m_digit ;; c <- m_digit ;; d <- m_digit ;;
  m_ret (1000 * a + 100 * b + 10 * c + d).

(** [%m]: [1[0-2]|0[1-9]|[1-9]] *)
Definition re_m : matcher Z :=
  m_alt [ m_two (m_range 1 1) (m_range 0 2);
          m_two (m_range 0 0) (m_range 1 9);
          m_range 1 9 ].

(** [%d]: [3[0-1]|[1-2]\d|0[1-9]|[1-9]| [1-9]] *)
Definition re_d : matcher Z :=
  m_alt [ m_two (m_range 3 3) (m_range 0 1);
          m_two (m_range 1 2) m_digit;
          m_two (m_range 0 0) (m_range 1 9);
          m_range 1 9;
          (_ <- m_lit " " ;; m_range 1 9) ].

(** [%H]: [2[0-3]|[0-1]\d|\d] *)
Definition re_H : matcher Z :=
  m_alt [ m_two (m_range 2 2) (m_range 0 3);
          m_two (m_range 0 1) m_digit;
          m_digit ].

(** [%M]: [[0-5]\d|\d] *)
Definition re_M : matcher Z :=
  m_alt [ m_two (m_range 0 5) m_digit;
          m_digit ].

(** [format_regex.match(data_string)] followed by the test that no
    unconverted data remains: the first match in priority order is the one
    the engine reports. *)
Definition full_match {A} (m : matcher A) (s : string) : option A :=
  match m s with
  | (a, EmptyString) :: _ => Some a
  | _ => None
  end.

(** *** [datetime.date] *)

Record date : Type := mkdate { year : Z; month : Z; day : Z }.

Definition is_leap (y : Z) : bool :=
  (y mod 4 =? 0) && (negb (y mod 100 =? 0) || (y mod 400 =? 0)).

Definition DAYS_IN_MONTH : list Z :=
  [-1; 31; 28; 31; 30; 31; 30; 31; 31; 30; 31; 30; 31].

Definition DAYS_BEFORE_MONTH : list Z :=
  [-1; 0; 31; 59; 90; 120; 151; 181; 212; 243; 273; 304; 334].

Definition tbl (t : list Z) (i : Z) : Z := nth (Z.to_nat i) t 0.

Definition days_in_month (y m : Z) : Z :=
  if (m =? 2) && is_leap y then 29 else tbl DAYS_IN_MONTH m.

Definition days_before_month (y m : Z) : Z :=
  tbl DAYS_BEFORE_MONTH m + (if (2 <? m) && is_leap y then 1 else 0).

Definition days_before_year (y : Z) : Z :=
  let y := y - 1 in y * 365 + y / 4 - y / 100 + y / 400.

Definition MINYEAR : Z := 1.
Definition MAXYEAR : Z := 9999.
Definition MAXORDINAL : Z := 3652059.

(** The constructor [date(y, m, d)], which raises [ValueError] on a date
    that is not in the calendar. *)
Definition make_date (y m d : Z) : option date :=
  if (MINYEAR <=? y) && (y <=? MAXYEAR) && (1 <=? m) && (m <=? 12)
     && (1 <=? d) && (d <=? days_in_month y m)
  then Some (mkdate y m d) else None.

Definition toordinal (d : date) : Z :=
  days_before_year (year d) + days_before_month (year d) (month d) + day d.

Definition DI400Y : Z := 146097.
Definition DI100Y : Z := 36524.
Definition DI4Y : Z := 1461.

(** [_ord2ymd] *)
Definition fromordinal (n : Z) : date :=
  let n := n - 1 in
  let n400 := n / DI400Y in
  let n := n mod DI400Y in
  let y := n400 * 400 + 1 in
  let n100 := n / DI100Y in
  let n := n mod DI100Y in
  let n4 := n / DI4Y in
  let n := n mod DI4Y in
  let n1 := n / 365 in
  let n := n mod 365 in
  let y := y + n100 * 100 + n4 * 4 + n1 in
  if (n1 =? 4) || (n100 =? 4) then mkdate (y - 1) 12 31
  else
    let leapyear := (n1 =? 3) && (negb (n4 =? 24) || (n100 =? 3)) in
    let m := Z.shiftr (n + 50) 5 in
    let preceding :=
      tbl DAYS_BEFORE_MONTH m + (if (2 <? m) && leapyear then 1 else 0) in
    if n <? preceding then
      let m := m - 1 in
      let preceding :=
        preceding
        - (tbl DAYS_IN_MONTH m + (if (m =? 2) && leapyear then 1 else 0)) in
      mkdate y m (n - preceding + 1)
    else mkdate y m (n - preceding + 1).

(** [d + timedelta(days=k)], which raises [OverflowError] outside the
    calendar. *)
Definition date_add_days (d : date) (k : Z) : option date :=
  let o := toordinal d + k in
  if (0 <? o) && (o <=? MAXORDINAL) then Some (fromordinal o) else None.

(** Ordering of dates: (year, month, day) lexicographically. *)
Definition date_lt (a b : date) : bool :=
  (year a <? year b)
  || ((year a =? year b)
      && ((month a <? month b)
          || ((month a =? month b) && (day a <? day b)))).

Definition date_eqb (a b : date) : bool :=
  (year a =? year b) && (month a =? month b) && (day a =? day b).

Definition date_le (a b : date) : bool := date_lt a b || date_eqb a b.
Definition date_gt (a b : date) : bool := date_lt b a.

(** [datetime.strptime(s, '%Y-%m-%d').date()]; [None] is [ValueError]. *)
Definition re_date : matcher (Z * Z * Z) :=
  y <- re_Y ;; _ <- m_lit "-" ;; m <- re_m ;; _ <- m_lit "-" ;; d <- re_d ;;
  m_ret (y, m, d).

Definition strptime_date (s : string) : option date :=
  match full_match re_date s with
  | Some (y, m, d) => make_date y m d
  | None => None
  end.

(** [datetime.time], to the minute. *)
Record time : Type := mktime { hour : Z; minute : Z }.

Definition time_lt (a b : time) : bool :=
  (hour a <? hour b) || ((hour a =? hour b) && (minute a <? minute b)).

Definition time_eqb (a b : time) : bool :=
  (hour a =? hour b) && (minute a =? minute b).

Definition time_le (a b : time) : bool := time_lt a b || time_eqb a b.

(** [datetime.strptime(s, '%H:%M').time()]; [None] is [ValueError]. *)
Definition re_time : matcher (Z * Z) :=
  h <- re_H ;; _ <- m_lit ":" ;; m <- re_M ;; m_ret (h, m).

Definition strptime_time (s : string) : option time :=
  match full_match re_time s with
  | Some (h, m) => Some (mktime h m)
  | None => None
  end.

(** The calendar day after [d]. *)
Definition next_day (d : date) : date :=
  if day d <? days_in_month (year d) (month d)
  then mkdate (year d) (month d) (day d + 1)
  else if month d <? 12 then mkdate (year d) (month d + 1) 1
  else mkdate (year d + 1) 1 1.

End Py.

(** ** Data model ([models.py]) *)

Module Doctor.
Record t : Type := mk {
  id : Z;
  name : string;
  specialization : string;
  is_blacklisted : option bool   (* nullable Boolean, default False *)
}.
End Doctor.

Module Appointment.
Record t : Type := mk {
  id : Z;
  patient_id : Z;
  doctor_id : Z;
  date : string;     (* 'YYYY-MM-DD' *)
  time : string;     (* 'HH:MM' *)
  status : string;   (* Booked / Completed / Cancelled *)
  reason : string
}.
End Appointment.

Module DoctorAvailability.
Record t : Type := mk {
  id : Z;
  doctor_id : Z;
  start_date : string;
  end_date : string;
  start_time : string;
  end_time : string
}.
End DoctorAvailability.

(** The part of the store the handlers below read and write. *)
Record DB : Type := mkDB {
  doctors : list Doctor.t;
  availability : list DoctorAvailability.t;
  appointments : list Appointment.t
}.

Definition set_appointments (db : DB) (l : list Appointment.t) : DB :=
  mkDB (doctors db) (availability db) l.

Definition set_availability (db : DB) (l : list DoctorAvailability.t) : DB :=
  mkDB (doctors db) l (appointments db).

Definition set_doctors (db : DB) (l : list Doctor.t) : DB :=
  mkDB l (availability db) (appointments db).

(** Integer primary key given to a new row: one more than the largest. *)
Definition next_id (ids : list Z) : Z := 1 + fold_right Z.max 0 ids.

(** The integers of an INTEGER column and of an integer parameter. *)
Definition in_int64 (n : Z) : bool :=
  (- 2 ^ 63 <=? n) && (n <=? 2 ^ 63 - 1).

(** The number the store reads in a text that is an integer numeral:
    white space, an optional sign, digits and nothing else.  An underscore
    makes the text no number for the store.  (Texts with a fraction or an
    exponent are numbers for the store too; [int] raises on them, so they
    never reach a query here.) *)
Definition sql_numeric (s : string) : option Z :=
  Py.signed Py.digits (Py.strip_c s).

(** An integer column compared with a text parameter, as in
    [filter_by(doctor_id=doc_id)] where [doc_id] is the form field: the
    store compares the column with the number it reads in the text, and a
    text that is no number equals no integer. *)
Definition sql_int_eq (col : Z) (param : string) : bool :=
  match sql_numeric param with
  | Some n => col =? n
  | None => false
  end.

(** [query.get(pk)] *)
Definition get_appointment (db : DB) (appt_id : Z) : option Appointment.t :=
  find (fun a => Appointment.id a =? appt_id) (appointments db).

Definition get_availability (db : DB) (avail_id : Z)
  : option DoctorAvailability.t :=
  find (fun a => DoctorAvailability.id a =? avail_id) (availability db).

Definition get_doctor (db : DB) (doc_id : Z) : option Doctor.t :=
  find (fun d => Doctor.id d =? doc_id) (doctors db).

(** Writing through the row with primary key [appt_id]. *)
Definition update_appointment (db : DB) (appt_id : Z)
    (f : Appointment.t -> Appointment.t) : DB :=
  set_appointments db
    (map (fun a => if Appointment.id a =? appt_id then f a else a)
         (appointments db)).

Definition with_status (st : string) (a : Appointment.t) : Appointment.t :=
  Appointment.mk (Appointment.id a) (Appointment.patient_id a)
    (Appointment.doctor_id a) (Appointment.date a) (Appointment.time a)
    st (Appointment.reason a).

Definition with_date_time (d t : string) (a : Appointment.t)
  : Appointment.t :=
  Appointment.mk (Appointment.id a) (Appointment.patient_id a)
    (Appointment.doctor_id a) d t
    (Appointment.status a) (Appointment.reason a).

(** ** What a handler answers: the flashed message, or the HTTP error. *)

Inductive Outcome : Type :=
  (* role_required *)
  | AccessDenied
  (* get_or_404, and an exception no handler catches *)
  | NotFound
  | ServerError
  (* patient_book_appointment *)
  | MissingField            (* 'Doctor, date, and time are required.' *)
  | NoAvailability          (* 'Doctor has not set any availability yet...' *)
  | DateOutOfRange          (* 'Doctor is available from ... to ...' *)
  | TimeOutOfRange          (* 'Doctor is only available from ... to ...' *)
  | MalformedInput          (* 'Error verifying doctor availability.' *)
  | SlotTaken               (* 'This time slot is already booked...' *)
  | PatientConflict         (* 'You already have an appointment at this time.' *)
  | Accept                  (* 'Appointment booked successfully!' *)
  | BookingError            (* 'Error booking appointment.' *)
  (* patient_reschedule_appointment, patient_cancel_appointment *)
  | NotAuthorized
  | DateTimeRequired
  | Rescheduled
  | RescheduleError
  | CancelledOk
  | CancelError
  (* admin_/doctor_update_appointment_status *)
  | InvalidStatus
  | StatusUpdated
  | UpdateError
  (* doctor_add_availability, doctor_delete_availability *)
  | FieldsRequired          (* 'All availability fields are required.' *)
  | StartInPast
  | RangeTooFar
  | EndBeforeStart
  | InvalidDate
  | InvalidTime
  | EndTimeNotAfterStart
  | AvailabilitySet
  | AvailabilityError
  | AvailabilityDeleted
  (* admin_toggle_doctor_blacklist *)
  | BlacklistToggled.

(** ** Control flow inside a [try] block: fall through to the next
    statement, leave the handler with a response, or raise. *)

Inductive flow (A : Type) : Type :=
  | Continue (a : A)
  | Return (o : Outcome)
  | Raise.
Arguments Continue {A} a.
Arguments Return {A} o.
Arguments Raise {A}.

Definition flow_bind {A B} (m : flow A) (k : A -> flow B) : flow B :=
  match m with
  | Continue a => k a
  | Return o => Return o
  | Raise => Raise
  end.

(** A call that raises where the model answers [None]. *)
Definition or_raise {A} (o : option A) : flow A :=
  match o with
  | Some a => Continue a
  | None => Raise
  end.

Notation "x <~ m ;; k" := (flow_bind m (fun x => k))
  (at level 61, m at next level, right associativity).

(** ** Patient: booking *)

Record BookForm : Type := mkBookForm {
  form_doctor_id : option string;   (* request.form.get('doctor_id') *)
  form_date : string;               (* request.form.get('date', '') *)
  form_time : string;
  form_reason : string
}.

(** The [try] block of the POST branch.

    The query [filter_by(doctor_id=int(doc_id)).first()] binds an integer:
    the driver raises [OverflowError] on one beyond 64 bits.  The keys of
    the rows are 64-bit integers, so such a parameter finds no row (see
    [out_of_range_finds_nothing]); the raise is modelled where no row is
    found. *)
Definition check_availability (db : DB) (doc_id date time : string)
  : flow unit :=
  booking_date <~ or_raise (Py.strptime_date date) ;;
  did <~ or_raise (Py.int doc_id) ;;
  match find (fun av => DoctorAvailability.doctor_id av =? did)
             (availability db) with
  | None => if in_int64 did then Return NoAvailability else Raise
  | Some avail =>
      avail_start <~
        or_raise (Py.strptime_date (DoctorAvailability.start_date avail)) ;;
      avail_end <~
        or_raise (Py.strptime_date (DoctorAvailability.end_date avail)) ;;
      if negb (Py.date_le avail_start booking_date
               && Py.date_le booking_date avail_end)
      then Return DateOutOfRange
      else if Py.str_lt time (DoctorAvailability.start_time avail)
              || Py.str_gt time (DoctorAvailability.end_time avail)
      then Return TimeOutOfRange
      else Continue tt
  end.

(** The keys of the windows are integers of the store. *)
Definition keys_in_int64 (db : DB) : bool :=
  forallb (fun av => in_int64 (DoctorAvailability.doctor_id av))
          (availability db).

(** Rows matched by [filter_by(doctor_id=doc_id, date=date, time=time)]. *)
Definition same_slot (doc_id date time : string) (a : Appointment.t) : bool :=
  sql_int_eq (Appointment.doctor_id a) doc_id
  && (Appointment.date a =? date)%string
  && (Appointment.time a =? time)%string.

(** Rows matched by [filter_by(patient_id=pat_id, date=date, time=time)]. *)
Definition same_patient_time (pat_id : Z) (date time : string)
    (a : Appointment.t) : bool :=
  (Appointment.patient_id a =? pat_id)
  && (Appointment.date a =? date)%string
  && (Appointment.time a =? time)%string.

(** The statements after the [try] block: the two conflict queries and the
    insertion. *)
Definition book_after_checks
    (db : DB) (pat_id : Z) (doc_id date time reason : string)
    (commit_ok : bool) : Outcome * DB :=
  match find (same_slot doc_id date time) (appointments db) with
  | Some _ => (SlotTaken, db)
  | None =>
      match find (same_patient_time pat_id date time) (appointments db) with
      | Some _ => (PatientConflict, db)
      | None =>
          match Py.int doc_id with
          | None => (ServerError, db)
          | Some did =>
              let appt :=
                Appointment.mk
                  (next_id (map Appointment.id (appointments db)))
                  pat_id did date time "Booked" reason in
              if commit_ok
              then (Accept, set_appointments db (appointments db ++ [appt]))
              else (BookingError, db)
          end
      end
  end.

Definition patient_book_appointment_post
    (db : DB) (pat_id : Z) (form : BookForm) (commit_ok : bool)
  : Outcome * DB :=
  let date := Py.strip (form_date form) in
  let time := Py.strip (form_time form) in
  let reason := Py.strip (form_reason form) in
  match form_doctor_id form with
  | None => (MissingField, db)
  | Some doc_id =>
      if negb (Py.truthy doc_id) || negb (Py.truthy date)
         || negb (Py.truthy time)
      then (MissingField, db)
      else
        match check_availability db doc_id date time with
        | Return o => (o, db)
        | Raise => (MalformedInput, db)
        | Continue _ =>
            book_after_checks db pat_id doc_id date time reason commit_ok
        end
  end.

(** Rows matched by [filter_by(is_blacklisted=False)]. *)
Definition not_blacklisted (d : Doctor.t) : bool :=
  match Doctor.is_blacklisted d with
  | Some false => true
  | _ => false
  end.

(** The [doctors] binding of the GET branch: the doctors that are not
    blacklisted. *)
Definition patient_book_appointment_get (db : DB) : list Doctor.t :=
  filter not_blacklisted (doctors db).

(** ** Patient: search *)

Section Search.

(** [column.ilike(pattern)] of the store. *)
Variable ilike : string -> string -> bool.

Definition patient_search_doctors (db : DB) (arg_spec arg_name : string)
  : list Doctor.t :=
  let specialization := Py.strip arg_spec in
  let doctor_name := Py.strip arg_name in
  let query := filter not_blacklisted (doctors db) in
  let query :=
    if Py.truthy specialization
    then filter (fun d => (Doctor.specialization d =? specialization)%string)
                query
    else query in
  let query :=
    if Py.truthy doctor_name
    then filter (fun d =>
                   ilike (Doctor.name d) ("%" ++ doctor_name ++ "%")%string)
                query
    else query in
  query.

End Search.

(** ** Patient: reschedule and cancel *)

Definition patient_reschedule_appointment_post
    (db : DB) (pat_id appt_id : Z) (form_date form_time : string)
    (commit_ok : bool) : Outcome * DB :=
  match get_appointment db appt_id with
  | None => (NotFound, db)
  | Some appt =>
      if negb (Appointment.patient_id appt =? pat_id)
      then (NotAuthorized, db)
      else
        let new_date := Py.strip form_date in
        let new_time := Py.strip form_time in
        if negb (Py.truthy new_date) || negb (Py.truthy new_time)
        then (DateTimeRequired, db)
        else
          match find (fun a =>
                        (Appointment.doctor_id a =? Appointment.doctor_id appt)
                        && (Appointment.date a =? new_date)%string
                        && (Appointment.time a =? new_time)%string
                        && negb (Appointment.id a =? appt_id))
                     (appointments db) with
          | Some _ => (SlotTaken, db)
          | None =>
              if commit_ok
              then (Rescheduled,
                    update_appointment db appt_id
                      (with_date_time new_date new_time))
              else (RescheduleError, db)
          end
  end.

Definition patient_cancel_appointment
    (db : DB) (pat_id appt_id : Z) (commit_ok : bool) : Outcome * DB :=
  match get_appointment db appt_id with
  | None => (NotFound, db)
  | Some appt =>
      if negb (Appointment.patient_id appt =? pat_id)
      then (NotAuthorized, db)
      else if commit_ok
      then (CancelledOk, update_appointment db appt_id (with_status "Cancelled"))
      else (CancelError, db)
  end.

(** ** Admin and doctor: status update *)

(** [new_status not in ('Booked', 'Completed', 'Cancelled')] *)
Definition valid_status (new_status : option string) : option string :=
  match new_status with
  | Some s =>
      if ((s =? "Booked") || (s =? "Completed") || (s =? "Cancelled"))%string
      then Some s else None
  | None => None
  end.

Definition admin_update_appointment_status
    (db : DB) (appt_id : Z) (form_status : option string) (commit_ok : bool)
  : Outcome * DB :=
  match get_appointment db appt_id with
  | None => (NotFound, db)
  | Some appt =>
      match valid_status form_status with
      | None => (InvalidStatus, db)
      | Some new_status =>
          if commit_ok
          then (StatusUpdated,
                update_appointment db appt_id (with_status new_status))
          else (UpdateError, db)
      end
  end.

Definition doctor_update_appointment_status
    (db : DB) (doc_id appt_id : Z) (form_status : option string)
    (commit_ok : bool) : Outcome * DB :=
  match get_appointment db appt_id with
  | None => (NotFound, db)
  | Some appt =>
      if negb (Appointment.doctor_id appt =? doc_id)
      then (NotAuthorized, db)
      else
        match valid_status form_status with
        | None => (InvalidStatus, db)
        | Some new_status =>
            if commit_ok
            then (StatusUpdated,
                  update_appointment db appt_id (with_status new_status))
            else (UpdateError, db)
        end
  end.

(** ** Doctor: availability *)

Record AvailForm : Type := mkAvailForm {
  form_start_date : string;
  form_end_date : string;
  form_start_time : string;
  form_end_time : string
}.

(** The first [try] block: [ValueError] is caught, [OverflowError] of
    [today + timedelta(days=7)] is not. *)
Definition check_dates (today : Py.date) (start_date end_date : string)
  : flow unit :=
  match Py.strptime_date start_date with
  | None => Return InvalidDate
  | Some start_date_obj =>
      match Py.strptime_date end_date with
      | None => Return InvalidDate
      | Some end_date_obj =>
          max_date <~ or_raise (Py.date_add_days today 7) ;;
          if Py.date_lt start_date_obj today then Return StartInPast
          else if Py.date_gt end_date_obj max_date then Return RangeTooFar
          else if Py.date_lt end_date_obj start_date_obj
          then Return EndBeforeStart
          else Continue tt
      end
  end.

(** The second [try] block. *)
Definition check_times (start_time end_time : string) : flow unit :=
  match Py.strptime_time start_time with
  | None => Return InvalidTime
  | Some start_time_obj =>
      match Py.strptime_time end_time with
      | None => Return InvalidTime
      | Some end_time_obj =>
          if Py.time_le end_time_obj start_time_obj
          then Return EndTimeNotAfterStart
          else Continue tt
      end
  end.

Definition doctor_add_availability
    (db : DB) (doc_id : Z) (form : AvailForm) (today : Py.date)
    (commit_ok : bool) : Outcome * DB :=
  let start_date := Py.strip (form_start_date form) in
  let end_date := Py.strip (form_end_date form) in
  let start_time := Py.strip (form_start_time form) in
  let end_time := Py.strip (form_end_time form) in
  if negb (Py.truthy start_date) || negb (Py.truthy end_date)
     || negb (Py.truthy start_time) || negb (Py.truthy end_time)
  then (FieldsRequired, db)
  else
    match (_ <~ check_dates today start_date end_date ;;
           check_times start_time end_time) with
    | Return o => (o, db)
    | Raise => (ServerError, db)
    | Continue _ =>
        let avail :=
          DoctorAvailability.mk
            (next_id (map DoctorAvailability.id (availability db)))
            doc_id start_date end_date start_time end_time in
        if commit_ok
        then (AvailabilitySet,
              set_availability db (availability db ++ [avail]))
        else (AvailabilityError, db)
    end.

Definition doctor_delete_availability
    (db : DB) (doc_id avail_id : Z) (commit_ok : bool) : Outcome * DB :=
  match get_availability db avail_id with
  | None => (NotFound, db)
  | Some avail =>
      if negb (DoctorAvailability.doctor_id avail =? doc_id)
      then (NotAuthorized, db)
      else if commit_ok
      then (AvailabilityDeleted,
            set_availability db
              (filter (fun a => negb (DoctorAvailability.id a =? avail_id))
                      (availability db)))
      else (AvailabilityError, db)
  end.

(** ** Admin: blacklist *)

Definition admin_toggle_doctor_blacklist
    (db : DB) (doc_id : Z) (commit_ok : bool) : Outcome * DB :=
  match get_doctor db doc_id with
  | None => (NotFound, db)
  | Some doctor =>
      let current_status :=
        match Doctor.is_blacklisted doctor with
        | Some b => b
        | None => false
        end in
      if commit_ok
      then (BlacklistToggled,
            set_doctors db
              (map (fun d =>
                      if Doctor.id d =? doc_id
                      then Doctor.mk (Doctor.id d) (Doctor.name d)
                             (Doctor.specialization d)
                             (Some (negb current_status))
                      else d)
                   (doctors db)))
      else (UpdateError, db)
  end.

(** ** Requests and sessions *)

Record Session : Type := mkSession {
  role : option string;     (* session.get('role') *)
  user_id : Z               (* session.get('user_id') *)
}.

(** The decorator [role_required(required_role)]. *)
Definition role_required (required_role : string) (s : Session)
    (db : DB) (f : Outcome * DB) : Outcome * DB :=
  match role s with
  | None => (AccessDenied, db)
  | Some r => if (r =? required_role)%string then f else (AccessDenied, db)
  end.

Inductive Request : Type :=
  | BookAppointment (form : BookForm)
  | RescheduleAppointment (appt_id : Z) (date time : string)
  | CancelAppointment (appt_id : Z)
  | AdminUpdateStatus (appt_id : Z) (status : option string)
  | DoctorUpdateStatus (appt_id : Z) (status : option string)
  | AddAvailability (form : AvailForm)
  | DeleteAvailability (avail_id : Z)
  | ToggleDoctorBlacklist (doc_id : Z).

(** What one request sees of the world besides the store. *)
Record Env : Type := mkEnv {
  session : Session;
  today : Py.date;
  commit_ok : bool
}.

Definition handle (db : DB) (e : Env) (r : Request) : Outcome * DB :=
  let uid := user_id (session e) in
  let ok := commit_ok e in
  match r with
  | BookAppointment form =>
      role_required "patient" (session e) db
        (patient_book_appointment_post db uid form ok)
  | RescheduleAppointment appt_id d t =>
      role_required "patient" (session e) db
        (patient_reschedule_appointment_post db uid appt_id d t ok)
  | CancelAppointment appt_id =>
      role_required "patient" (session e) db
        (patient_cancel_appointment db uid appt_id ok)
  | AdminUpdateStatus appt_id st =>
      role_required "admin" (session e) db
        (admin_update_appointment_status db appt_id st ok)
  | DoctorUpdateStatus appt_id st =>
      role_required "doctor" (session e) db
        (doctor_update_appointment_status db uid appt_id st ok)
  | AddAvailability form =>
      role_required "doctor" (session e) db
        (doctor_add_availability db uid form (today e) ok)
  | DeleteAvailability avail_id =>
      role_required "doctor" (session e) db
        (doctor_delete_availability db uid avail_id ok)
  | ToggleDoctorBlacklist doc_id =>
      role_required "admin" (session e) db
        (admin_toggle_doctor_blacklist db doc_id ok)
  end.

(** The store after a sequence of requests. *)
Fixpoint run (db : DB) (reqs : list (Env * Request)) : DB :=
  match reqs with
  | [] => db
  | (e, r) :: rest => run (snd (handle db e r)) rest
  end.

Definition status_of (db : DB) (appt_id : Z) : option string :=
  option_map Appointment.status (get_appointment db appt_id).

(** The three values of the status column. *)
Definition known_status (st : string) : Prop :=
  st = "Booked" \/ st = "Completed" \/ st = "Cancelled".

(** Requests that assign [appt.status] of appointment [appt_id]. *)
Definition writes_status (appt_id : Z) (r : Request) : bool :=
  match r with
  | CancelAppointment i => i =? appt_id
  | AdminUpdateStatus i _ => i =? appt_id
  | DoctorUpdateStatus i _ => i =? appt_id
  | _ => false
  end.

(** ** The conditions of availability registration, in the words of the
    specification *)

(** Both dates parse, start_date is not before the current date, end_date
    does not exceed the current date + 7 days, and end_date >= start_date. *)
Definition dates_ok (today max_date : Py.date) (sd ed : string) : Prop :=
  exists s e,
    Py.strptime_date sd = Some s /\ Py.strptime_date ed = Some e
    /\ Py.date_lt s today = false
    /\ Py.date_le e max_date = true
    /\ Py.date_le s e = true.

(** Both times parse and end_time > start_time. *)
Definition times_ok (st et : string) : Prop :=
  exists t1 t2,
    Py.strptime_time st = Some t1 /\ Py.strptime_time et = Some t2
    /\ Py.time_lt t1 t2 = true.

Definition may_register (today max_date : Py.date) (sd ed st et : string)
  : Prop :=
  dates_ok today max_date sd ed /\ times_ok st et.

(** ** Sample data *)

Definition window_D : DoctorAvailability.t :=
  DoctorAvailability.mk 1 1 "2024-06-01" "2024-06-07" "09:00" "17:00".

Definition db0 : DB :=
  mkDB [Doctor.mk 1 "Dr. John Smith" "Cardiology" (Some false);
        Doctor.mk 2 "Dr. Sarah Jones" "Neurology" (Some false)]
       [window_D;
        DoctorAvailability.mk 2 2 "2024-06-01" "2024-06-07" "09:00" "17:00"]
       [].

Definition req (doc date time : string) : BookForm :=
  mkBookForm (Some doc) date time "checkup".

(** Doctor 1 blacklisted, with the same windows. *)
Definition db_blacklisted : DB :=
  mkDB [Doctor.mk 1 "Dr. John Smith" "Cardiology" (Some true);
        Doctor.mk 2 "Dr. Sarah Jones" "Neurology" (Some false)]
       (availability db0)
       [].

(** One appointment at (doctor 1, 2024-06-05, 10:00) held by patient 5. *)
Definition appt_with (st : string) : Appointment.t :=
  Appointment.mk 1 5 1 "2024-06-05" "10:00" st "checkup".

Definition db_with (st : string) : DB :=
  mkDB (doctors db0) (availability db0) [appt_with st].

(** Doctor 10 with a window, and one appointment at
    (doctor 10, 2024-06-05, 10:00) held by patient 5. *)
Definition appt_ten : Appointment.t :=
  Appointment.mk 1 5 10 "2024-06-05" "10:00" "Booked" "checkup".

Definition db_ten : DB :=
  mkDB [Doctor.mk 10 "Dr. Asha Rao" "Dermatology" (Some false)]
       [DoctorAvailability.mk 1 10 "2024-06-01" "2024-06-07" "09:00" "17:00"]
       [appt_ten].

Definition as_role (r : string) (uid : Z) : Env :=
  mkEnv (mkSession (Some r) uid) (Py.mkdate 2024 6 1) true.

Definition avail_req (sd ed st et : string) : AvailForm :=
  mkAvailForm sd ed st et.

(** ** Properties of the store that the handlers keep *)

(** The role each route is decorated with. *)
Definition required_role (r : Request) : string :=
  match r with
  | BookAppointment _ => "patient"
  | RescheduleAppointment _ _ _ => "patient"
  | CancelAppointment _ => "patient"
  | AdminUpdateStatus _ _ => "admin"
  | DoctorUpdateStatus _ _ => "doctor"
  | AddAvailability _ => "doctor"
  | DeleteAvailability _ => "doctor"
  | ToggleDoctorBlacklist _ => "admin"
  end.

(** Primary keys are distinct. *)
Definition distinct_ids (db : DB) : Prop :=
  NoDup (map Appointment.id (appointments db)).

(** No two rows of the ledger are on the same (doctor, date, time). *)
Definition no_double_booking (db : DB) : Prop :=
  forall a b,
    In a (appointments db) -> In b (appointments db) ->
    Appointment.doctor_id a = Appointment.doctor_id b ->
    Appointment.date a = Appointment.date b ->
    Appointment.time a = Appointment.time b ->
    Appointment.id a = Appointment.id b.

(** No patient has two rows at the same (date, time). *)
Definition no_patient_clash (db : DB) : Prop :=
  forall a b,
    In a (appointments db) -> In b (appointments db) ->
    Appointment.patient_id a = Appointment.patient_id b ->
    Appointment.date a = Appointment.date b ->
    Appointment.time a = Appointment.time b ->
    Appointment.id a = Appointment.id b.

(** The columns of an appointment no handler assigns. *)
Definition same_booking (a b : Appointment.t) : Prop :=
  Appointment.id a = Appointment.id b
  /\ Appointment.patient_id a = Appointment.patient_id b
  /\ Appointment.doctor_id a = Appointment.doctor_id b
  /\ Appointment.reason a = Appointment.reason b.

(** A window as [doctor_add_availability] lets it in: the dates and the
    times parse, the dates are in order and the times strictly so. *)
Definition window_ok (w : DoctorAvailability.t) : Prop :=
  exists s e t1 t2,
    Py.strptime_date (DoctorAvailability.start_date w) = Some s
    /\ Py.strptime_date (DoctorAvailability.end_date w) = Some e
    /\ Py.date_le s e = true
    /\ Py.strptime_time (DoctorAvailability.start_time w) = Some t1
    /\ Py.strptime_time (DoctorAvailability.end_time w) = Some t2
    /\ Py.time_lt t1 t2 = true.

Definition registry_ok (db : DB) : Prop :=
  forall w, In w (availability db) -> window_ok w.

(** The window the booking handler consults for a doctor. *)
Definition first_window (db : DB) (did : Z) : option DoctorAvailability.t :=
  find (fun av => DoctorAvailability.doctor_id av =? did) (availability db).

(** ** Doctor: dashboard *)

(** The inner function [in_next_week] of [doctor_dashboard]. *)
Definition in_next_week (today week_end : Py.date) (a_date_str : string)
  : bool :=
  match Py.strptime_date a_date_str with
  | Some d => Py.date_le today d && Py.date_le d week_end
  | None => false
  end.

(** ** What one request does to the ledger *)

(** Writing through row [j], as [update_appointment] does. *)
Definition write_row (j : Z) (f : Appointment.t -> Appointment.t)
    (l : list Appointment.t) : list Appointment.t :=
  map (fun a => if Appointment.id a =? j then f a else a) l.

(** The ledger after a request is the ledger before, or one of three
    writes, each with the tests the handler made before it. *)
Inductive ledger_step (db : DB) (e : Env)
  : Request -> list Appointment.t -> Prop :=
  | step_same (r : Request) : ledger_step db e r (appointments db)
  | step_book (form : BookForm) (doc_id : string) (did : Z) :
      role (session e) = Some "patient" ->
      form_doctor_id form = Some doc_id ->
      Py.int doc_id = Some did ->
      find (same_slot doc_id (Py.strip (form_date form))
                      (Py.strip (form_time form)))
           (appointments db) = None ->
      find (same_patient_time (user_id (session e))
                              (Py.strip (form_date form))
                              (Py.strip (form_time form)))
           (appointments db) = None ->
      ledger_step db e (BookAppointment form)
        (appointments db ++
         [Appointment.mk (next_id (map Appointment.id (appointments db)))
            (user_id (session e)) did
            (Py.strip (form_date form)) (Py.strip (form_time form))
            "Booked" (Py.strip (form_reason form))])
  | step_reschedule (j : Z) (d t : string) (appt : Appointment.t) :
      role (session e) = Some "patient" ->
      get_appointment db j = Some appt ->
      Appointment.patient_id appt = user_id (session e) ->
      find (fun a =>
              (Appointment.doctor_id a =? Appointment.doctor_id appt)
              && (Appointment.date a =? Py.strip d)%string
              && (Appointment.time a =? Py.strip t)%string
              && negb (Appointment.id a =? j))
           (appointments db) = None ->
      ledger_step db e (RescheduleAppointment j d t)
        (write_row j (with_date_time (Py.strip d) (Py.strip t))
                   (appointments db))
  | step_status (r : Request) (j : Z) (st : string) (appt : Appointment.t) :
      writes_status j r = true ->
      role (session e) = Some (required_role r) ->
      get_appointment db j = Some appt ->
      known_status st ->
      (required_role r = "patient" ->
       Appointment.patient_id appt = user_id (session e)
       /\ st = "Cancelled") ->
      (required_role r = "doctor" ->
       Appointment.doctor_id appt = user_id (session e)) ->
      ledger_step db e r (write_row j (with_status st) (appointments db)).

(** A booking form whose doctor id is ASCII text without underscore: on
    such a field the slot query, which is given the field as it was sent,
    looks for the doctor that [int] reads in it. *)
Definition plain_form (form : BookForm) : bool :=
  match form_doctor_id form with
  | Some doc_id => Py.is_ascii doc_id && negb (Py.has_underscore doc_id)
  | None => true
  end.

Definition plain_doctor_id (r : Request) : bool :=
  match r with
  | BookAppointment form => plain_form form
  | _ => true
  end.

Definition is_reschedule (r : Request) : bool :=
  match r with
  | RescheduleAppointment _ _ _ => true
  | _ => false
  end.

(** ** What one request does to the registry *)

Definition distinct_window_ids (db : DB) : Prop :=
  NoDup (map DoctorAvailability.id (availability db)).

(** The registry after a request is the registry before, or one window
    more at the end, or the registry without the rows of one key. *)
Inductive registry_step (db : DB) (e : Env)
  : Request -> list DoctorAvailability.t -> Prop :=
  | reg_same (r : Request) : registry_step db e r (availability db)
  | reg_add (form : AvailForm) (max_date : Py.date) :
      role (session e) = Some "doctor" ->
      Py.date_add_days (today e) 7 = Some max_date ->
      may_register (today e) max_date
        (Py.strip (form_start_date form)) (Py.strip (form_end_date form))
        (Py.strip (form_start_time form)) (Py.strip (form_end_time form)) ->
      registry_step db e (AddAvailability form)
        (availability db ++
         [DoctorAvailability.mk
            (next_id (map DoctorAvailability.id (availability db)))
            (user_id (session e))
            (Py.strip (form_start_date form)) (Py.strip (form_end_date form))
            (Py.strip (form_start_time form)) (Py.strip (form_end_time form))])
  | reg_delete (j : Z) (w : DoctorAvailability.t) :
      role (session e) = Some "doctor" ->
      get_availability db j = Some w ->
      DoctorAvailability.doctor_id w = user_id (session e) ->
      registry_step db e (DeleteAvailability j)
        (filter (fun a => negb (DoctorAvailability.id a =? j))
                (availability db)).

Definition distinct_doctor_ids (db : DB) : Prop :=
  NoDup (map Doctor.id (doctors db)).

(** The assignment [doctor.is_blacklisted = b] on the rows of key [j]. *)
Definition set_flag (j : Z) (b : bool) (x : Doctor.t) : Doctor.t :=
  if Doctor.id x =? j
  then Doctor.mk (Doctor.id x) (Doctor.name x) (Doctor.specialization x)
         (Some b)
  else x.

(** ** Accounts ([models.py]: Admin, Doctor, Patient) *)

Module Admin.
Record t : Type := mk {
  admin_username : string;
  password_hash : string;
  name : string;
  email : string
}.
End Admin.

(** A doctor row with the columns the account handlers use; [doctor] holds
    the columns the booking side reads. *)
Module DoctorAccount.
Record t : Type := mk {
  doctor : Doctor.t;
  email : string;
  phone : string;
  password_hash : string
}.
End DoctorAccount.

(** The columns [address] and [created_at], which none of the handlers
    modelled here reads or writes, are left out. *)
Module Patient.
Record t : Type := mk {
  id : Z;
  name : string;
  age : string;        (* the stripped form field, as handed to the column *)
  gender : string;
  email : string;
  phone : string;
  password_hash : string;
  is_blacklisted : option bool
}.
End Patient.

Record Accounts : Type := mkAccounts {
  admins : list Admin.t;
  doctor_accounts : list DoctorAccount.t;
  patients : list Patient.t
}.

(** Who a successful login writes into the session. *)
Inductive Identity : Type :=
  | AdminId (admin_username : string)
  | DoctorId (id : Z)
  | PatientId (id : Z).

Inductive LoginOutcome : Type :=
  | FillAllFields             (* 'Please fill all fields.' *)
  | AdminLoginOk
  | InvalidAdminCredentials
  | DoctorNotFound
  | AccountBlocked            (* 'Your account is blocked. Contact admin.' *)
  | DoctorLoginOk
  | InvalidCredentials
  | PatientNotFound
  | PatientLoginOk
  | InvalidRole.

Inductive AccountOutcome : Type :=
  | RequiredMissing           (* 'Name, email and password are required.' *)
  | EmailTaken                (* 'Email already registered...' *)
  | Registered
  | RegisterError
  | NoSuchRow                 (* get_or_404 *)
  | NameEmailRequired         (* 'Name and email are required.' *)
  | EmailInUse                (* 'Email already in use by another doctor.' *)
  | DoctorUpdated
  | DoctorUpdateError
  | PatientToggled
  | PatientToggleError.

Record LoginForm : Type := mkLoginForm {
  login_role : option string;      (* request.form.get('role') *)
  login_identifier : string;       (* request.form.get('identifier', '') *)
  login_password : string          (* request.form.get('password', '') *)
}.

Record PatientForm : Type := mkPatientForm {
  pf_name : string;
  pf_email : string;
  pf_password : string;
  pf_phone : string;
  pf_age : string;
  pf_gender : string
}.

Record DoctorForm : Type := mkDoctorForm {
  df_name : string;
  df_email : string;
  df_password : string;
  df_phone : string;
  df_specialization : string
}.

(** [if user.is_blacklisted:] on a nullable Boolean. *)
Definition flag_set (o : option bool) : bool :=
  match o with
  | Some true => true
  | _ => false
  end.

Section Auth.

(** [werkzeug.security]: the hash of a password under a salt drawn at the
    call, and the check of a password against a hash. *)
Variable generate_password_hash : string -> string -> string.
Variable check_password_hash : string -> string -> bool.

(** The POST branch of [login]. *)
Definition login_post (acc : Accounts) (form : LoginForm)
  : LoginOutcome * option Identity :=
  let identifier := Py.strip (login_identifier form) in
  let password := login_password form in
  match login_role form with
  | None => (FillAllFields, None)
  | Some role =>
      if negb (Py.truthy role) || negb (Py.truthy identifier)
         || negb (Py.truthy password)
      then (FillAllFields, None)
      else if (role =? "admin")%string then
        match find (fun u => (Admin.admin_username u =? identifier)%string)
                   (admins acc) with
        | Some user =>
            if check_password_hash (Admin.password_hash user) password
            then (AdminLoginOk, Some (AdminId (Admin.admin_username user)))
            else (InvalidAdminCredentials, None)
        | None => (InvalidAdminCredentials, None)
        end
      else if (role =? "doctor")%string then
        match find (fun u => (DoctorAccount.email u =? identifier)%string)
                   (doctor_accounts acc) with
        | None => (DoctorNotFound, None)
        | Some user =>
            if flag_set (Doctor.is_blacklisted (DoctorAccount.doctor user))
            then (AccountBlocked, None)
            else if check_password_hash (DoctorAccount.password_hash user)
                      password
            then (DoctorLoginOk,
                  Some (DoctorId (Doctor.id (DoctorAccount.doctor user))))
            else (InvalidCredentials, None)
        end
      else if (role =? "patient")%string then
        match find (fun u => (Patient.email u =? identifier)%string)
                   (patients acc) with
        | None => (PatientNotFound, None)
        | Some user =>
            if flag_set (Patient.is_blacklisted user)
            then (AccountBlocked, None)
            else if check_password_hash (Patient.password_hash user) password
            then (PatientLoginOk, Some (PatientId (Patient.id user)))
            else (InvalidCredentials, None)
        end
      else (InvalidRole, None)
  end.

(** The POST branch of [register_patient]. *)
Definition register_patient_post
    (acc : Accounts) (form : PatientForm) (salt : string) (commit_ok : bool)
  : AccountOutcome * Accounts :=
  let name := Py.strip (pf_name form) in
  let email := Py.strip (pf_email form) in
  let password := Py.strip (pf_password form) in
  let phone := Py.strip (pf_phone form) in
  let age := Py.strip (pf_age form) in
  let gender := Py.strip (pf_gender form) in
  if negb (Py.truthy name) || negb (Py.truthy email)
     || negb (Py.truthy password)
  then (RequiredMissing, acc)
  else
    match find (fun u => (Patient.email u =? email)%string)
               (patients acc) with
    | Some _ => (EmailTaken, acc)
    | None =>
        let patient :=
          Patient.mk (next_id (map Patient.id (patients acc)))
            name age gender email phone
            (generate_password_hash salt password) (Some false) in
        if commit_ok
        then (Registered,
              mkAccounts (admins acc) (doctor_accounts acc)
                (patients acc ++ [patient]))
        else (RegisterError, acc)
    end.

(** The POST branch of [register_doctor] (admin only). *)
Definition register_doctor_post
    (acc : Accounts) (form : DoctorForm) (salt : string) (commit_ok : bool)
  : AccountOutcome * Accounts :=
  let name := Py.strip (df_name form) in
  let email := Py.strip (df_email form) in
  let password := Py.strip (df_password form) in
  let phone := Py.strip (df_phone form) in
  let specialization := Py.strip (df_specialization form) in
  if negb (Py.truthy name) || negb (Py.truthy email)
     || negb (Py.truthy password)
  then (RequiredMissing, acc)
  else
    match find (fun u => (DoctorAccount.email u =? email)%string)
               (doctor_accounts acc) with
    | Some _ => (EmailTaken, acc)
    | None =>
        let doctor :=
          DoctorAccount.mk
            (Doctor.mk
               (next_id (map (fun u => Doctor.id (DoctorAccount.doctor u))
                             (doctor_accounts acc)))
               name specialization (Some false))
            email phone (generate_password_hash salt password) in
        if commit_ok
        then (Registered,
              mkAccounts (admins acc) (doctor_accounts acc ++ [doctor])
                (patients acc))
        else (RegisterError, acc)
    end.

End Auth.

(** The POST branch of [admin_edit_doctor]. *)
Definition admin_edit_doctor_post
    (acc : Accounts) (doc_id : Z) (form : DoctorForm) (commit_ok : bool)
  : AccountOutcome * Accounts :=
  match find (fun u => Doctor.id (DoctorAccount.doctor u) =? doc_id)
             (doctor_accounts acc) with
  | None => (NoSuchRow, acc)
  | Some doctor =>
      let name := Py.strip (df_name form) in
      let email := Py.strip (df_email form) in
      let phone := Py.strip (df_phone form) in
      let specialization := Py.strip (df_specialization form) in
      if negb (Py.truthy name) || negb (Py.truthy email)
      then (NameEmailRequired, acc)
      else
        let taken :=
          if negb (email =? DoctorAccount.email doctor)%string
          then match find (fun u => (DoctorAccount.email u =? email)%string)
                          (doctor_accounts acc) with
               | Some _ => true
               | None => false
               end
          else false in
        if taken then (EmailInUse, acc)
        else if commit_ok
        then (DoctorUpdated,
              mkAccounts (admins acc)
                (map (fun u =>
                        if Doctor.id (DoctorAccount.doctor u) =? doc_id
                        then DoctorAccount.mk
                               (Doctor.mk (Doctor.id (DoctorAccount.doctor u))
                                  name specialization
                                  (Doctor.is_blacklisted
                                     (DoctorAccount.doctor u)))
                               email phone (DoctorAccount.password_hash u)
                        else u)
                     (doctor_accounts acc))
                (patients acc))
        else (DoctorUpdateError, acc)
  end.

(** [admin_toggle_patient_blacklist] *)
Definition admin_toggle_patient_blacklist
    (acc : Accounts) (pat_id : Z) (commit_ok : bool)
  : AccountOutcome * Accounts :=
  match find (fun u => Patient.id u =? pat_id) (patients acc) with
  | None => (NoSuchRow, acc)
  | Some patient =>
      let current_status :=
        match Patient.is_blacklisted patient with
        | Some b => b
        | None => false
        end in
      if commit_ok
      then (PatientToggled,
            mkAccounts (admins acc) (doctor_accounts acc)
              (map (fun u =>
                      if Patient.id u =? pat_id
                      then Patient.mk (Patient.id u) (Patient.name u)
                             (Patient.age u) (Patient.gender u)
                             (Patient.email u) (Patient.phone u)
                             (Patient.password_hash u)
                             (Some (negb current_status))
                      else u)
                   (patients acc)))
      else (PatientToggleError, acc)
  end.

(** No two patients, and no two doctors, under one email address. *)
Definition patient_emails_distinct (acc : Accounts) : Prop :=
  NoDup (map Patient.email (patients acc)).

Definition doctor_key (u : DoctorAccount.t) : Z :=
  Doctor.id (DoctorAccount.doctor u).

Definition doctor_emails_distinct (acc : Accounts) : Prop :=
  NoDup (map doctor_key (doctor_accounts acc))
  /\ forall a b,
       In a (doctor_accounts acc) -> In b (doctor_accounts acc) ->
       DoctorAccount.email a = DoctorAccount.email b ->
       doctor_key a = doctor_key b.

(** ** Treatments *)

Module Treatment.
Record t : Type := mk {
  id : Z;
  appointment_id : Z;
  diagnosis : string;
  prescription : string;
  notes : string
}.
End Treatment.

Record TreatmentForm : Type := mkTreatmentForm {
  tf_diagnosis : string;
  tf_prescription : string;
  tf_notes : string
}.

Inductive TreatmentOutcome : Type :=
  | NoSuchAppointment         (* get_or_404 *)
  | NotYourAppointment        (* 'Not authorized.' *)
  | DiagnosisRequired
  | TreatmentSaved
  | TreatmentError.

(** [Treatment.query.filter_by(appointment_id=appt_id).first()] *)
Definition treatment_of (ts : list Treatment.t) (appt_id : Z)
  : option Treatment.t :=
  find (fun t => Treatment.appointment_id t =? appt_id) ts.

(** The POST branch of [doctor_add_treatment], for the doctor [doc_id] of
    the session. *)
Definition doctor_add_treatment_post
    (db : DB) (ts : list Treatment.t) (doc_id appt_id : Z)
    (form : TreatmentForm) (commit_ok : bool)
  : TreatmentOutcome * list Treatment.t :=
  match get_appointment db appt_id with
  | None => (NoSuchAppointment, ts)
  | Some appt =>
      if negb (Appointment.doctor_id appt =? doc_id)
      then (NotYourAppointment, ts)
      else
        let existing_treatment := treatment_of ts appt_id in
        let diagnosis := Py.strip (tf_diagnosis form) in
        let prescription := Py.strip (tf_prescription form) in
        let notes := Py.strip (tf_notes form) in
        if negb (Py.truthy diagnosis) then (DiagnosisRequired, ts)
        else
          let ts' :=
            match existing_treatment with
            | Some t =>
                map (fun x =>
                       if Treatment.id x =? Treatment.id t
                       then Treatment.mk (Treatment.id x)
                              (Treatment.appointment_id x)
                              diagnosis prescription notes
                       else x) ts
            | None =>
                ts ++ [Treatment.mk (next_id (map Treatment.id ts))
                         appt_id diagnosis prescription notes]
            end in
          if commit_ok then (TreatmentSaved, ts') else (TreatmentError, ts)
  end.

Inductive TreatmentView : Type :=
  | ViewNotFound
  | ViewNotAuthorized
  | ViewRendered (appointment : Appointment.t)
                 (treatment : option Treatment.t).

(** [patient_view_treatment], for the patient [pat_id] of the session. *)
Definition patient_view_treatment
    (db : DB) (ts : list Treatment.t) (pat_id appt_id : Z) : TreatmentView :=
  match get_appointment db appt_id with
  | None => ViewNotFound
  | Some appt =>
      if negb (Appointment.patient_id appt =? pat_id)
      then ViewNotAuthorized
      else ViewRendered appt (treatment_of ts appt_id)
  end.

(** At most one treatment per appointment. *)
Definition one_treatment_each (ts : list Treatment.t) : Prop :=
  NoDup (map Treatment.id ts) /\ NoDup (map Treatment.appointment_id ts).

(** ** Sample data for the properties of the store *)

Definition today0 : Py.date := Py.mkdate 2024 6 1.

Definition week_form : AvailForm :=
  avail_req "2024-06-02" "2024-06-07" "09:00" "17:00".

Definition no_commit (r : string) (uid : Z) : Env :=
  mkEnv (mkSession (Some r) uid) today0 false.

(** A password scheme for the examples: the hash is the password. *)
Definition plain_hash (salt password : string) : string := password.
Definition plain_check (pwhash password : string) : bool :=
  (pwhash =? password)%string.

Definition patient_jane : Patient.t :=
  Patient.mk 1 "Jane Doe" "28" "Female" "jane@patient.com" "8765432101"
    "patient123" (Some false).

Definition acc0 : Accounts :=
  mkAccounts [Admin.mk "admin" "admin123" "Hospital Admin" "admin@hospital.com"]
    [DoctorAccount.mk (Doctor.mk 1 "Dr. John Smith" "Cardiology" (Some false))
       "john@hospital.com" "9876543210" "doctor123"]
    [patient_jane].

Definition new_patient : PatientForm :=
  mkPatientForm "Robert Brown" " robert@patient.com " " secret " "8765432102"
    "45" "Male".

Definition new_doctor : DoctorForm :=
  mkDoctorForm "Dr. Mike Johnson" "mike@hospital.com" "doctor123"
    "9876543212" "Orthopedics".

Definition flu : TreatmentForm :=
  mkTreatmentForm " Influenza " "Rest and fluids" "".

(** ** Basic facts about the runtime *)

Lemma truthy_true_iff (s : string) : Py.truthy s = true <-> s <> "".
Proof.
  unfold Py.truthy. rewrite negb_true_iff. apply String.eqb_neq.
Qed.

Lemma strptime_date_truthy (s : string) (d : Py.date) :
  Py.strptime_date s = Some d -> Py.truthy s = true.
Proof.
  destruct s as [|c r]; [discriminate | reflexivity].
Qed.

Lemma int_truthy (s : string) (n : Z) : Py.int s = Some n -> Py.truthy s = true.
Proof.
  destruct s as [|c r]; [discriminate | reflexivity].
Qed.

(** *** Where [int] and the store read the same number

    A text without underscore that [int] reads is read by the store as the
    same number. *)

Lemma int_digits_plain (s : string) :
  forall (acc : Z) (count : nat) (p : bool) (v : Z) (k : nat),
    Py.has_underscore s = false ->
    Py.int_digits acc count p s = Some (v, k) ->
    Py.digits_acc acc s = Some v.
Proof.
  induction s as [|c r IH]; intros acc count p v k Hu H; simpl in *.
  - destruct p; [|discriminate]. now injection H as <- _.
  - apply orb_false_iff in Hu. destruct Hu as [Hc Hr]. rewrite Hc in H.
    destruct (Py.digit_val c) as [d|]; [|discriminate].
    eapply IH; eauto.
Qed.

Lemma int_literal_plain (s : string) (n : Z) :
  Py.has_underscore s = false ->
  Py.int_literal s = Some n -> Py.digits s = Some n.
Proof.
  unfold Py.int_literal. intros Hu H.
  destruct (Py.int_digits 0 0 false s) as [[v k]|] eqn:E; [|discriminate].
  destruct (k <=? Py.MAX_STR_DIGITS)%nat; [|discriminate].
  injection H as <-.
  destruct s as [|c r]; [discriminate E|].
  unfold Py.digits. eapply int_digits_plain; eauto.
Qed.

Lemma lstrip_c_plain (s : string) :
  Py.has_underscore s = false -> Py.has_underscore (Py.lstrip_c s) = false.
Proof.
  induction s as [|c r IH]; simpl; intros Hu; [reflexivity|].
  destruct (Py.is_cspace c); [|exact Hu].
  apply orb_false_iff in Hu. now apply IH.
Qed.

Lemma rstrip_c_plain (s : string) :
  Py.has_underscore s = false -> Py.has_underscore (Py.rstrip_c s) = false.
Proof.
  induction s as [|c r IH]; simpl; intros Hu; [reflexivity|].
  apply orb_false_iff in Hu. destruct Hu as [Hc Hr].
  destruct (Py.is_cspace c && _); simpl; [reflexivity|].
  now rewrite Hc, (IH Hr).
Qed.

Lemma int_plain_is_sql_numeric (s : string) (n : Z) :
  Py.has_underscore s = false ->
  Py.int s = Some n -> sql_numeric s = Some n.
Proof.
  unfold Py.int, sql_numeric, Py.strip_c. intros Hu.
  apply lstrip_c_plain, rstrip_c_plain in Hu. revert Hu.
  generalize (Py.rstrip_c (Py.lstrip_c s)). intros [|c r] Hu; simpl.
  - apply int_literal_plain; exact Hu.
  - assert (Hr : Py.has_underscore r = false).
    { simpl in Hu. now apply orb_false_iff in Hu. }
    destruct (Ascii.eqb c "+"); [apply int_literal_plain; exact Hr|].
    destruct (Ascii.eqb c "-").
    + destruct (Py.int_literal r) as [v|] eqn:E; [|discriminate].
      intros H. now rewrite (int_literal_plain r v Hr E).
    + apply int_literal_plain; exact Hu.
Qed.

(** *** Doctor ids beyond 64 bits

    On a store whose keys are 64-bit integers, a doctor id beyond 64 bits
    finds no row, whatever the order of the query and of the test of its
    parameter: the [try] block raises. *)

Lemma out_of_range_finds_nothing (db : DB) (did : Z) :
  keys_in_int64 db = true -> in_int64 did = false ->
  find (fun av => DoctorAvailability.doctor_id av =? did) (availability db)
  = None.
Proof.
  unfold keys_in_int64. intros Hk Hd.
  destruct (find _ (availability db)) as [av|] eqn:F; [|reflexivity].
  apply find_some in F. destruct F as [Hin Heq].
  apply Z.eqb_eq in Heq. rewrite forallb_forall in Hk.
  rewrite <- Heq, (Hk av Hin) in Hd. discriminate.
Qed.

Lemma check_availability_out_of_range
    (db : DB) (doc_id date time : string) (bd : Py.date) (did : Z) :
  keys_in_int64 db = true ->
  Py.strptime_date date = Some bd ->
  Py.int doc_id = Some did ->
  in_int64 did = false ->
  check_availability db doc_id date time = Raise.
Proof.
  intros Hk Hbd Hint Hd. unfold check_availability.
  rewrite Hbd, Hint. simpl.
  now rewrite (out_of_range_finds_nothing db did Hk Hd), Hd.
Qed.

Lemma find_hit {A} (p : A -> bool) (l : list A) (a : A) :
  In a l -> p a = true -> exists b, find p l = Some b.
Proof.
  intros Hin Hp. destruct (find p l) as [b|] eqn:F.
  - now exists b.
  - rewrite (find_none p l F a Hin) in Hp. discriminate.
Qed.

(** ** Booking *)

Section Booking.

Variables (db : DB) (pat_id : Z) (form : BookForm) (commit_ok : bool).

Let date := Py.strip (form_date form).
Let time := Py.strip (form_time form).

(** Once the required fields are there, the handler is its three checks in
    a row. *)
Lemma book_with_fields (doc_id : string) :
  form_doctor_id form = Some doc_id ->
  Py.truthy doc_id = true -> Py.truthy date = true -> Py.truthy time = true ->
  patient_book_appointment_post db pat_id form commit_ok =
  match check_availability db doc_id date time with
  | Return o => (o, db)
  | Raise => (MalformedInput, db)
  | Continue _ =>
      book_after_checks db pat_id doc_id date time
        (Py.strip (form_reason form)) commit_ok
  end.
Proof.
  intros Hd T1 T2 T3. unfold patient_book_appointment_post.
  fold date. fold time. rewrite Hd, T1, T2, T3. reflexivity.
Qed.

(** A request whose availability checks fall through carried a doctor id
    and a date. *)
Lemma check_passes_fields (doc_id : string) :
  check_availability db doc_id date time = Continue tt ->
  Py.truthy doc_id = true /\ Py.truthy date = true.
Proof.
  unfold check_availability. intros H.
  destruct (Py.strptime_date date) as [bd|] eqn:Hbd; [|discriminate].
  destruct (Py.int doc_id) as [did|] eqn:Hint; [|discriminate].
  split; [eapply int_truthy | eapply strptime_date_truthy]; eauto.
Qed.

(** The availability checks once the date and the doctor id are read. *)
Lemma check_availability_parsed (doc_id : string) (bd : Py.date) (did : Z) :
  Py.strptime_date date = Some bd ->
  Py.int doc_id = Some did ->
  check_availability db doc_id date time =
  match find (fun av => DoctorAvailability.doctor_id av =? did)
             (availability db) with
  | None => if in_int64 did then Return NoAvailability else Raise
  | Some avail =>
      avail_start <~
        or_raise (Py.strptime_date (DoctorAvailability.start_date avail)) ;;
      avail_end <~
        or_raise (Py.strptime_date (DoctorAvailability.end_date avail)) ;;
      if negb (Py.date_le avail_start bd && Py.date_le bd avail_end)
      then Return DateOutOfRange
      else if Py.str_lt time (DoctorAvailability.start_time avail)
              || Py.str_gt time (DoctorAvailability.end_time avail)
      then Return TimeOutOfRange
      else Continue tt
  end.
Proof.
  intros Hbd Hint. unfold check_availability. rewrite Hbd, Hint. reflexivity.
Qed.

(** A request that passes the availability checks is rejected with
    SlotTaken as soon as some appointment row, whatever its status
    (Cancelled included), has the date and the time of the request and the
    doctor the store reads in the form field. *)
Lemma slot_taken_any_status (doc_id : string) (a : Appointment.t) :
  form_doctor_id form = Some doc_id ->
  Py.truthy time = true ->
  check_availability db doc_id date time = Continue tt ->
  In a (appointments db) ->
  sql_numeric doc_id = Some (Appointment.doctor_id a) ->
  Appointment.date a = date ->
  Appointment.time a = time ->
  patient_book_appointment_post db pat_id form commit_ok = (SlotTaken, db).
Proof.
  intros Hd Ht Hc Hin Hdoc Hdate Htime.
  destruct (check_passes_fields doc_id Hc) as [T1 T2].
  rewrite (book_with_fields doc_id Hd T1 T2 Ht), Hc.
  unfold book_after_checks.
  assert (Hs : same_slot doc_id date time a = true).
  { unfold same_slot, sql_int_eq. rewrite Hdoc, Hdate, Htime.
    now rewrite Z.eqb_refl, !String.eqb_refl. }
  destruct (find_hit _ _ _ Hin Hs) as [b ->]. reflexivity.
Qed.

(** C2. A request that passes the availability checks and finds the
    doctor's slot free is rejected with PatientConflict as soon as the
    requesting patient has an appointment row, whatever its status and
    doctor, at the requested date and time. *)
Theorem C2_patient_conflict_any_doctor (doc_id : string) (a : Appointment.t) :
  form_doctor_id form = Some doc_id ->
  Py.truthy time = true ->
  check_availability db doc_id date time = Continue tt ->
  find (same_slot doc_id date time) (appointments db) = None ->
  In a (appointments db) ->
  Appointment.patient_id a = pat_id ->
  Appointment.date a = date ->
  Appointment.time a = time ->
  patient_book_appointment_post db pat_id form commit_ok
  = (PatientConflict, db).
Proof.
  intros Hd Ht Hc Hfree Hin Hpat Hdate Htime.
  destruct (check_passes_fields doc_id Hc) as [T1 T2].
  rewrite (book_with_fields doc_id Hd T1 T2 Ht), Hc.
  unfold book_after_checks. rewrite Hfree.
  assert (Hs : same_patient_time pat_id date time a = true).
  { unfold same_patient_time. rewrite Hpat, Hdate, Htime.
    now rewrite Z.eqb_refl, !String.eqb_refl. }
  destruct (find_hit _ _ _ Hin Hs) as [b ->]. reflexivity.
Qed.

(** C3. For a doctor without any availability window, a request with a
    date that parses and a time is rejected with NoAvailability, and no
    appointment is created.  The doctor id is one the store can be asked
    for: an integer of 64 bits. *)
Theorem C3_no_availability (doc_id : string) (did : Z) (bd : Py.date) :
  form_doctor_id form = Some doc_id ->
  Py.int doc_id = Some did ->
  in_int64 did = true ->
  Py.strptime_date date = Some bd ->
  Py.truthy time = true ->
  (forall av, In av (availability db) ->
              DoctorAvailability.doctor_id av <> did) ->
  patient_book_appointment_post db pat_id form commit_ok
  = (NoAvailability, db).
Proof.
  intros Hd Hint H64 Hbd Ht Hnone.
  rewrite (book_with_fields doc_id Hd (int_truthy _ _ Hint)
             (strptime_date_truthy _ _ Hbd) Ht).
  rewrite (check_availability_parsed doc_id bd did Hbd Hint).
  destruct (find _ (availability db)) as [av|] eqn:F;
    [|now rewrite H64].
  apply find_some in F. destruct F as [Hin Heq].
  apply Z.eqb_eq in Heq. now elim (Hnone av Hin).
Qed.

End Booking.

(** ** Ordering of dates and of time strings *)

Ltac z_cases :=
  repeat match goal with
    | |- context [?a <? ?b] => destruct (Z.ltb_spec a b)
    | |- context [?a =? ?b] => destruct (Z.eqb_spec a b)
    end;
  simpl; try reflexivity; try lia.

Lemma date_le_refl (d : Py.date) : Py.date_le d d = true.
Proof.
  unfold Py.date_le, Py.date_lt, Py.date_eqb. z_cases.
Qed.

Lemma date_lt_not_le (a b : Py.date) :
  Py.date_lt a b = true -> Py.date_le b a = false.
Proof.
  unfold Py.date_le, Py.date_lt, Py.date_eqb. z_cases; discriminate.
Qed.

Lemma date_lt_next_day (d : Py.date) : Py.date_lt d (Py.next_day d) = true.
Proof.
  unfold Py.next_day.
  destruct (Z.ltb_spec (Py.day d) (Py.days_in_month (Py.year d) (Py.month d)));
    [| destruct (Z.ltb_spec (Py.month d) 12)];
    unfold Py.date_lt; simpl; z_cases.
Qed.

Lemma str_lt_not_leb (a b : string) :
  Py.str_lt a b = negb (String.leb b a).
Proof.
  unfold Py.str_lt, String.ltb, String.leb.
  rewrite (String.compare_antisym b a).
  destruct (String.compare a b); reflexivity.
Qed.

Lemma str_gt_not_leb (a b : string) :
  Py.str_gt a b = negb (String.leb a b).
Proof. unfold Py.str_gt. apply str_lt_not_leb. Qed.

Lemma string_leb_refl (a : string) : String.leb a a = true.
Proof.
  destruct (String.leb_total a a); assumption.
Qed.

(** The answers of the statements after the [try] block. *)
Lemma book_after_checks_outcome db pat_id doc_id date time reason commit_ok :
  In (fst (book_after_checks db pat_id doc_id date time reason commit_ok))
     [SlotTaken; PatientConflict; ServerError; Accept; BookingError].
Proof.
  unfold book_after_checks.
  destruct (find _ _); [simpl; tauto|].
  destruct (find _ _); [simpl; tauto|].
  destruct (Py.int doc_id); [|simpl; tauto].
  destruct commit_ok; simpl; tauto.
Qed.

(** ** Booking against a known window *)

Section BookingWindow.

Variables (db : DB) (pat_id : Z) (form : BookForm) (commit_ok : bool).
Variables (doc_id : string) (did : Z) (bd : Py.date).
Variables (avail : DoctorAvailability.t) (avail_start avail_end : Py.date).

Let date := Py.strip (form_date form).
Let time := Py.strip (form_time form).
Let result := patient_book_appointment_post db pat_id form commit_ok.

Hypothesis Hdoc : form_doctor_id form = Some doc_id.
Hypothesis Hint : Py.int doc_id = Some did.
Hypothesis Hdate : Py.strptime_date date = Some bd.
Hypothesis Htime : Py.truthy time = true.
Hypothesis Hfirst :
  find (fun av => DoctorAvailability.doctor_id av =? did) (availability db)
  = Some avail.
Hypothesis Hstart :
  Py.strptime_date (DoctorAvailability.start_date avail) = Some avail_start.
Hypothesis Hend :
  Py.strptime_date (DoctorAvailability.end_date avail) = Some avail_end.

(** With the first window of the doctor at hand, the handler is the date
    test, then the time test, then the conflict queries. *)
Lemma book_in_window :
  result =
  if negb (Py.date_le avail_start bd && Py.date_le bd avail_end)
  then (DateOutOfRange, db)
  else if Py.str_lt time (DoctorAvailability.start_time avail)
          || Py.str_gt time (DoctorAvailability.end_time avail)
  then (TimeOutOfRange, db)
  else book_after_checks db pat_id doc_id date time
         (Py.strip (form_reason form)) commit_ok.
Proof.
  unfold result.
  rewrite (book_with_fields db pat_id form commit_ok doc_id Hdoc
             (int_truthy _ _ Hint) (strptime_date_truthy _ _ Hdate) Htime).
  rewrite (check_availability_parsed db form doc_id bd did Hdate Hint).
  rewrite Hfirst, Hstart, Hend. simpl.
  destruct (negb _); [reflexivity|].
  destruct (_ || _); reflexivity.
Qed.

Lemma after_checks_not (o : Outcome) :
  ~ In o [SlotTaken; PatientConflict; ServerError; Accept; BookingError] ->
  fst (book_after_checks db pat_id doc_id date time
         (Py.strip (form_reason form)) commit_ok) <> o.
Proof.
  intros Hno Heq. apply Hno. rewrite <- Heq. apply book_after_checks_outcome.
Qed.

(** C4. Against the first window of the doctor, a requested date that
    parses passes the date test exactly when
    start_date <= date <= end_date as calendar dates.  Both ends are
    inside: a date equal to either end of a window passes, the day after
    end_date and the day before start_date are rejected with
    DateOutOfRange, and a rejection leaves the ledger as it was. *)
Theorem C4_date_check_inclusive :
  (fst result <> DateOutOfRange <->
   Py.date_le avail_start bd = true /\ Py.date_le bd avail_end = true)
  /\ (fst result = DateOutOfRange -> result = (DateOutOfRange, db))
  /\ (Py.date_le avail_start avail_end = true ->
      bd = avail_start \/ bd = avail_end -> fst result <> DateOutOfRange)
  /\ (bd = Py.next_day avail_end \/ Py.next_day bd = avail_start ->
      result = (DateOutOfRange, db)).
Proof.
  assert (Hin : Py.date_le avail_start bd = true ->
                Py.date_le bd avail_end = true ->
                fst result <> DateOutOfRange).
  { intros H1 H2. rewrite book_in_window, H1, H2. simpl.
    destruct (_ || _); [discriminate|].
    apply after_checks_not. simpl. intuition discriminate. }
  assert (Hout : ~ (Py.date_le avail_start bd = true
                    /\ Py.date_le bd avail_end = true) ->
                 result = (DateOutOfRange, db)).
  { intros Hn. rewrite book_in_window.
    destruct (Py.date_le avail_start bd); [|reflexivity].
    destruct (Py.date_le bd avail_end); [|reflexivity].
    elim Hn. split; reflexivity. }
  split; [|split; [|split]].
  - split.
    + intros Hne.
      destruct (Py.date_le avail_start bd) eqn:E1;
        destruct (Py.date_le bd avail_end) eqn:E2;
        try (split; reflexivity);
        elim Hne; rewrite Hout; try reflexivity;
        intros [? ?]; discriminate.
    + intros [H1 H2]. now apply Hin.
  - intros Hd.
    destruct (Py.date_le avail_start bd) eqn:E1;
      destruct (Py.date_le bd avail_end) eqn:E2;
      try (apply Hout; intros [? ?]; discriminate).
    now elim (Hin eq_refl eq_refl).
  - intros Hw [-> | ->]; apply Hin;
      try apply date_le_refl; assumption.
  - intros [-> | <-]; apply Hout; intros [H1 H2].
    + rewrite (date_lt_not_le _ _ (date_lt_next_day avail_end)) in H2.
      discriminate.
    + rewrite (date_lt_not_le _ _ (date_lt_next_day bd)) in H1.
      discriminate.
Qed.

(** C5. Once the date test is passed, a requested time passes the time
    test exactly when start_time <= time <= end_time in the lexicographic
    order of strings.  Both ends are inside, and a time outside is rejected
    with TimeOutOfRange, the ledger being left as it was. *)
Theorem C5_time_check_lexicographic :
  Py.date_le avail_start bd = true ->
  Py.date_le bd avail_end = true ->
  (fst result <> TimeOutOfRange <->
   String.leb (DoctorAvailability.start_time avail) time = true
   /\ String.leb time (DoctorAvailability.end_time avail) = true)
  /\ (fst result = TimeOutOfRange -> result = (TimeOutOfRange, db))
  /\ (String.leb (DoctorAvailability.start_time avail)
                 (DoctorAvailability.end_time avail) = true ->
      time = DoctorAvailability.start_time avail
      \/ time = DoctorAvailability.end_time avail ->
      fst result <> TimeOutOfRange).
Proof.
  intros D1 D2.
  assert (Hres : result =
    if negb (String.leb (DoctorAvailability.start_time avail) time)
       || negb (String.leb time (DoctorAvailability.end_time avail))
    then (TimeOutOfRange, db)
    else book_after_checks db pat_id doc_id date time
           (Py.strip (form_reason form)) commit_ok).
  { rewrite book_in_window, D1, D2. simpl.
    now rewrite str_lt_not_leb, str_gt_not_leb. }
  assert (Hin : String.leb (DoctorAvailability.start_time avail) time = true ->
                String.leb time (DoctorAvailability.end_time avail) = true ->
                fst result <> TimeOutOfRange).
  { intros H1 H2. rewrite Hres, H1, H2. simpl.
    apply after_checks_not. simpl. intuition discriminate. }
  assert (Hout : ~ (String.leb (DoctorAvailability.start_time avail) time
                    = true
                    /\ String.leb time (DoctorAvailability.end_time avail)
                       = true) ->
                 result = (TimeOutOfRange, db)).
  { intros Hn. rewrite Hres.
    destruct (String.leb (DoctorAvailability.start_time avail) time);
      [|reflexivity].
    destruct (String.leb time (DoctorAvailability.end_time avail));
      [|reflexivity].
    elim Hn. split; reflexivity. }
  split; [|split].
  - split.
    + intros Hne.
      destruct (String.leb (DoctorAvailability.start_time avail) time) eqn:E1;
        destruct (String.leb time (DoctorAvailability.end_time avail)) eqn:E2;
        try (split; reflexivity);
        elim Hne; rewrite Hout; try reflexivity;
        intros [? ?]; discriminate.
    + intros [H1 H2]. now apply Hin.
  - intros Ht.
    destruct (String.leb (DoctorAvailability.start_time avail) time) eqn:E1;
      destruct (String.leb time (DoctorAvailability.end_time avail)) eqn:E2;
      try (apply Hout; intros [? ?]; discriminate).
    now elim (Hin eq_refl eq_refl).
  - intros Hw [-> | ->]; apply Hin;
      try apply string_leb_refl; assumption.
Qed.

End BookingWindow.

(** ** Booking: what is rejected as malformed, and what a request changes *)

Section BookingPaths.

Variables (db : DB) (pat_id : Z) (form : BookForm) (commit_ok : bool).

Let date := Py.strip (form_date form).
Let time := Py.strip (form_time form).
Let result := patient_book_appointment_post db pat_id form commit_ok.

(** C8 (amended). A request with its three fields whose date string the
    parser of [%Y-%m-%d] refuses is rejected with MalformedInput, before any
    look at the registry, and the ledger is left as it was.  The time string
    is nowhere parsed. *)
Theorem C8_unparsable_date_rejected (doc_id : string) :
  form_doctor_id form = Some doc_id ->
  Py.truthy doc_id = true ->
  Py.truthy date = true ->
  Py.truthy time = true ->
  Py.strptime_date date = None ->
  result = (MalformedInput, db).
Proof.
  intros Hd T1 T2 T3 Hbad. unfold result.
  rewrite (book_with_fields db pat_id form commit_ok doc_id Hd T1 T2 T3).
  unfold check_availability. fold date. rewrite Hbad. reflexivity.
Qed.

(** What the [try] block can answer. *)
Lemma check_availability_answers (doc_id : string) :
  match check_availability db doc_id date time with
  | Return o => In o [NoAvailability; DateOutOfRange; TimeOutOfRange]
  | Raise => True
  | Continue _ => exists did, Py.int doc_id = Some did
  end.
Proof.
  unfold check_availability.
  destruct (Py.strptime_date date); simpl; [|exact I].
  destruct (Py.int doc_id) as [did|]; simpl; [|exact I].
  destruct (find _ _) as [av|];
    [|destruct (in_int64 did); simpl; tauto].
  destruct (Py.strptime_date (DoctorAvailability.start_date av));
    simpl; [|exact I].
  destruct (Py.strptime_date (DoctorAvailability.end_date av));
    simpl; [|exact I].
  destruct (negb _); [simpl; tauto|].
  destruct (_ || _); [simpl; tauto|].
  now exists did.
Qed.


End BookingPaths.

(** ** Blacklisted doctors *)

Lemma search_excludes_blacklisted ilike db arg_spec arg_name d :
  In d (patient_search_doctors ilike db arg_spec arg_name) ->
  Doctor.is_blacklisted d = Some false.
Proof.
  unfold patient_search_doctors. intros Hin.
  assert (Hq : In d (filter not_blacklisted (doctors db))).
  { destruct (Py.truthy (Py.strip arg_name));
      [apply filter_In in Hin; destruct Hin as [Hin _]|];
      (destruct (Py.truthy (Py.strip arg_spec));
       [apply filter_In in Hin; destruct Hin as [Hin _]|]);
      exact Hin. }
  apply filter_In in Hq. destruct Hq as [_ Hnb].
  unfold not_blacklisted in Hnb.
  destruct (Doctor.is_blacklisted d) as [[|]|]; congruence.
Qed.

Lemma book_form_excludes_blacklisted db d :
  In d (patient_book_appointment_get db) ->
  Doctor.is_blacklisted d = Some false.
Proof.
  unfold patient_book_appointment_get. intros Hin.
  apply filter_In in Hin. destruct Hin as [_ Hnb].
  unfold not_blacklisted in Hnb.
  destruct (Doctor.is_blacklisted d) as [[|]|]; congruence.
Qed.

(** C1 (defect). The slot test compares the doctor column with the form
    field as it was sent, while the window lookup and the new row take
    [int] of it.  Patient 5 holds doctor 10's slot (2024-06-05, 10:00).
    Patient 6 is refused on the field [10]; on the field [1_0], which
    [int] reads as 10 and in which the store reads no number, the request
    passes the availability checks, the slot test finds nothing, and a
    second row is written on the occupied slot. *)
Theorem C1_underscore_id_books_taken_slot :
  Py.int "1_0" = Some 10
  /\ sql_numeric "1_0" = None
  /\ check_availability db_ten "1_0" "2024-06-05" "10:00" = Continue tt
  /\ In appt_ten (appointments db_ten)
  /\ patient_book_appointment_post db_ten 6
       (req "10" "2024-06-05" "10:00") true
     = (SlotTaken, db_ten)
  /\ patient_book_appointment_post db_ten 6
       (req "1_0" "2024-06-05" "10:00") true
     = (Accept,
        set_appointments db_ten
          [appt_ten;
           Appointment.mk 2 6 10 "2024-06-05" "10:00" "Booked" "checkup"]).
Proof.
  repeat split; try (vm_compute; reflexivity).
  simpl. left. reflexivity.
Qed.

(** C9. Doctor 1 is blacklisted and has a window.  Search and the booking
    form leave the doctor out, yet a POST naming doctor 1 is accepted and
    the appointment is written. *)
Theorem C9_blacklisted_doctor_is_booked :
  option_map Doctor.is_blacklisted (get_doctor db_blacklisted 1)
  = Some (Some true)
  /\ map Doctor.id (patient_book_appointment_get db_blacklisted) = [2]
  /\ (forall ilike,
        map Doctor.id (patient_search_doctors ilike db_blacklisted "" "")
        = [2])
  /\ patient_book_appointment_post db_blacklisted 5
       (req "1" "2024-06-05" "10:00") true
     = (Accept,
        set_appointments db_blacklisted
          [Appointment.mk 1 5 1 "2024-06-05" "10:00" "Booked" "checkup"]).
Proof.
  repeat split; intros; vm_compute; reflexivity.
Qed.

(** ** Status of an appointment along a sequence of requests *)

Lemma valid_status_known (o : option string) (st : string) :
  valid_status o = Some st -> known_status st.
Proof.
  unfold valid_status, known_status. destruct o as [s|]; [|discriminate].
  destruct (String.eqb_spec s "Booked");
    destruct (String.eqb_spec s "Completed");
    destruct (String.eqb_spec s "Cancelled"); simpl;
    intros H; inversion H; subst; tauto.
Qed.

Lemma find_id_map (g : Appointment.t -> Appointment.t) (i : Z)
    (l : list Appointment.t) :
  (forall a, Appointment.id (g a) = Appointment.id a) ->
  find (fun a => Appointment.id a =? i) (map g l)
  = option_map g (find (fun a => Appointment.id a =? i) l).
Proof.
  intros Hid. induction l as [|a l IH]; simpl; [reflexivity|].
  rewrite Hid. destruct (Appointment.id a =? i); [reflexivity | exact IH].
Qed.

Lemma find_app_some {A} (p : A -> bool) (l l' : list A) (a : A) :
  find p l = Some a -> find p (l ++ l') = Some a.
Proof.
  induction l as [|x l IH]; simpl; [discriminate|].
  destruct (p x); [trivial | exact IH].
Qed.

(** Writing through row [j] with a function that keeps the primary key. *)
Lemma status_of_update db j f i :
  (forall a, Appointment.id (f a) = Appointment.id a) ->
  status_of (update_appointment db j f) i
  = option_map
      (fun a => Appointment.status (if Appointment.id a =? j then f a else a))
      (get_appointment db i).
Proof.
  intros Hid. unfold status_of, get_appointment, update_appointment. simpl.
  rewrite find_id_map.
  - now destruct (find _ (appointments db)).
  - intros a. destruct (Appointment.id a =? j); [apply Hid | reflexivity].
Qed.

Lemma get_appointment_id db i a :
  get_appointment db i = Some a -> Appointment.id a = i.
Proof.
  unfold get_appointment. intros H. apply find_some in H.
  now apply Z.eqb_eq.
Qed.

Lemma status_of_update_other db j f i st :
  (forall a, Appointment.id (f a) = Appointment.id a) ->
  j <> i ->
  status_of db i = Some st ->
  status_of (update_appointment db j f) i = Some st.
Proof.
  intros Hid Hne Hst. rewrite status_of_update by exact Hid.
  unfold status_of in Hst.
  destruct (get_appointment db i) as [a|] eqn:G; [|discriminate].
  simpl in *. rewrite (get_appointment_id _ _ _ G).
  destruct (Z.eqb_spec i j); [congruence | exact Hst].
Qed.

Lemma status_of_reschedule db j d t i st :
  status_of db i = Some st ->
  status_of (update_appointment db j (with_date_time d t)) i = Some st.
Proof.
  intros Hst. rewrite status_of_update by reflexivity.
  unfold status_of in Hst.
  destruct (get_appointment db i) as [a|]; [|discriminate].
  simpl in *. now destruct (Appointment.id a =? j).
Qed.

Lemma status_of_set_status db j new i st :
  status_of db i = Some st ->
  status_of (update_appointment db j (with_status new)) i
  = Some (if i =? j then new else st).
Proof.
  intros Hst. rewrite status_of_update by reflexivity.
  unfold status_of in Hst.
  destruct (get_appointment db i) as [a|] eqn:G; [|discriminate].
  simpl in *. rewrite (get_appointment_id _ _ _ G).
  destruct (i =? j); simpl; congruence.
Qed.

Lemma status_of_same_ledger db db' i :
  appointments db' = appointments db -> status_of db' i = status_of db i.
Proof.
  unfold status_of, get_appointment. now intros ->.
Qed.

Lemma role_required_cases rr s db f :
  role_required rr s db f = f \/ role_required rr s db f = (AccessDenied, db).
Proof.
  unfold role_required. destruct (role s) as [r|]; [|now right].
  destruct (r =? rr)%string; [now left | now right].
Qed.

(** Booking either leaves the store or appends one row to the ledger. *)
Lemma book_store_cases db pat_id form ok :
  snd (patient_book_appointment_post db pat_id form ok) = db
  \/ exists a,
       snd (patient_book_appointment_post db pat_id form ok)
       = set_appointments db (appointments db ++ [a]).
Proof.
  unfold patient_book_appointment_post.
  destruct (form_doctor_id form) as [doc_id|]; [|now left].
  destruct (_ || _); [now left|].
  destruct (check_availability _ _ _ _); try (now left).
  unfold book_after_checks.
  destruct (find (same_slot _ _ _) _); [now left|].
  destruct (find (same_patient_time _ _ _) _); [now left|].
  destruct (Py.int doc_id); [|now left].
  destruct ok; [right; eexists; reflexivity | now left].
Qed.

Lemma status_of_book db pat_id form ok i st :
  status_of db i = Some st ->
  status_of (snd (patient_book_appointment_post db pat_id form ok)) i
  = Some st.
Proof.
  intros Hst.
  destruct (book_store_cases db pat_id form ok) as [-> | [a ->]];
    [exact Hst|].
  unfold status_of, get_appointment in *. simpl.
  destruct (find _ (appointments db)) as [b|] eqn:F; [|discriminate].
  now rewrite (find_app_some _ _ _ _ F).
Qed.

(** One request: the status of an appointment the request does not write
    to stays, and a written status is one of the three values. *)
Lemma handle_status db e r i st :
  status_of db i = Some st ->
  (writes_status i r = false -> status_of (snd (handle db e r)) i = Some st)
  /\ (known_status st ->
      exists st', status_of (snd (handle db e r)) i = Some st'
                  /\ known_status st').
Proof.
  intros Hst.
  assert (Hkeep : status_of (snd (handle db e r)) i = Some st ->
                  (writes_status i r = false ->
                   status_of (snd (handle db e r)) i = Some st)
                  /\ (known_status st ->
                      exists st', status_of (snd (handle db e r)) i = Some st'
                                  /\ known_status st')).
  { intros H. split; [intros _; exact H | intros K; now exists st]. }
  destruct r; simpl;
    match goal with
    | |- context [role_required ?rr ?s ?d ?f] =>
        destruct (role_required_cases rr s d f) as [Hr | Hr]
    end;
    try (apply Hkeep; simpl; rewrite Hr; exact Hst).
  - (* book *)
    apply Hkeep. simpl. rewrite Hr. now apply status_of_book.
  - (* reschedule *)
    apply Hkeep. simpl. rewrite Hr.
    unfold patient_reschedule_appointment_post.
    destruct (get_appointment db appt_id); [|exact Hst].
    destruct (negb _); [exact Hst|].
    destruct (_ || _); [exact Hst|].
    destruct (find _ _); [exact Hst|].
    destruct (commit_ok e); [|exact Hst].
    now apply status_of_reschedule.
  - (* cancel *)
    rewrite Hr. unfold patient_cancel_appointment.
    destruct (get_appointment db appt_id);
      [|split; [intros _; exact Hst | intros K; now exists st]].
    destruct (negb _);
      [split; [intros _; exact Hst | intros K; now exists st]|].
    destruct (commit_ok e);
      [|split; [intros _; exact Hst | intros K; now exists st]].
    simpl. rewrite (status_of_set_status _ _ _ _ _ Hst). split.
    + intros Hw. rewrite Z.eqb_sym, Hw. reflexivity.
    + intros K. eexists. split; [reflexivity|].
      destruct (i =? appt_id); [right; right; reflexivity | exact K].
  - (* admin status *)
    rewrite Hr. unfold admin_update_appointment_status.
    destruct (get_appointment db appt_id);
      [|split; [intros _; exact Hst | intros K; now exists st]].
    destruct (valid_status status) as [new|] eqn:V;
      [|split; [intros _; exact Hst | intros K; now exists st]].
    destruct (commit_ok e);
      [|split; [intros _; exact Hst | intros K; now exists st]].
    simpl. rewrite (status_of_set_status _ _ _ _ _ Hst). split.
    + intros Hw. rewrite Z.eqb_sym, Hw. reflexivity.
    + intros K. eexists. split; [reflexivity|].
      destruct (i =? appt_id); [eapply valid_status_known; eauto | exact K].
  - (* doctor status *)
    rewrite Hr. unfold doctor_update_appointment_status.
    destruct (get_appointment db appt_id);
      [|split; [intros _; exact Hst | intros K; now exists st]].
    destruct (negb _);
      [split; [intros _; exact Hst | intros K; now exists st]|].
    destruct (valid_status status) as [new|] eqn:V;
      [|split; [intros _; exact Hst | intros K; now exists st]].
    destruct (commit_ok e);
      [|split; [intros _; exact Hst | intros K; now exists st]].
    simpl. rewrite (status_of_set_status _ _ _ _ _ Hst). split.
    + intros Hw. rewrite Z.eqb_sym, Hw. reflexivity.
    + intros K. eexists. split; [reflexivity|].
      destruct (i =? appt_id); [eapply valid_status_known; eauto | exact K].
  - (* add availability *)
    apply Hkeep. simpl. rewrite Hr. rewrite <- Hst.
    apply status_of_same_ledger. unfold doctor_add_availability.
    destruct (_ || _); [reflexivity|].
    destruct (flow_bind _ _); try reflexivity.
    destruct (commit_ok e); reflexivity.
  - (* delete availability *)
    apply Hkeep. simpl. rewrite Hr. rewrite <- Hst.
    apply status_of_same_ledger. unfold doctor_delete_availability.
    destruct (get_availability db avail_id); [|reflexivity].
    destruct (negb _); [reflexivity|].
    destruct (commit_ok e); reflexivity.
  - (* blacklist *)
    apply Hkeep. simpl. rewrite Hr. rewrite <- Hst.
    apply status_of_same_ledger. unfold admin_toggle_doctor_blacklist.
    destruct (get_doctor db doc_id); [|reflexivity].
    destruct (commit_ok e); reflexivity.
Qed.



(** ** Registering an availability window *)

Lemma date_le_not_lt (a b : Py.date) :
  Py.date_le a b = negb (Py.date_lt b a).
Proof.
  unfold Py.date_le, Py.date_lt, Py.date_eqb. z_cases.
Qed.

Lemma time_le_not_lt (a b : Py.time) :
  Py.time_le a b = negb (Py.time_lt b a).
Proof.
  unfold Py.time_le, Py.time_lt, Py.time_eqb. z_cases.
Qed.

(** Closes one case of the registration checks: the answer is read off,
    and a condition contradicted by the case is refuted. *)
Ltac avail_ok :=
  split; do 2 eexists; repeat split; first [reflexivity | eassumption].

Ltac avail_leaf :=
  repeat split; intros; simpl in *;
  repeat match goal with
    | H : exists _, _ |- _ => destruct H
    | H : _ /\ _ |- _ => destruct H
    | H : _ \/ _ |- _ => destruct H
    end;
  try congruence;
  try avail_ok;
  try (do 2 eexists; repeat split; first [reflexivity | eassumption]);
  try (exfalso;
       match goal with H : ~ _ |- _ => apply H end; avail_ok).

Section Availability.

Variables (db : DB) (doc_id : Z) (form : AvailForm).
Variables (today max_date : Py.date).

Let start_date := Py.strip (form_start_date form).
Let end_date := Py.strip (form_end_date form).
Let start_time := Py.strip (form_start_time form).
Let end_time := Py.strip (form_end_time form).
Let result := doctor_add_availability db doc_id form today true.
Let window :=
  DoctorAvailability.mk
    (next_id (map DoctorAvailability.id (availability db)))
    doc_id start_date end_date start_time end_time.

Hypothesis Hmax : Py.date_add_days today 7 = Some max_date.

(** The handler, check by check, once the four fields are there. *)
Lemma add_availability_with_fields :
  Py.truthy start_date = true -> Py.truthy end_date = true ->
  Py.truthy start_time = true -> Py.truthy end_time = true ->
  result =
  match Py.strptime_date start_date, Py.strptime_date end_date with
  | Some s, Some e =>
      if Py.date_lt s today then (StartInPast, db)
      else if negb (Py.date_le e max_date) then (RangeTooFar, db)
      else if negb (Py.date_le s e) then (EndBeforeStart, db)
      else
        match Py.strptime_time start_time, Py.strptime_time end_time with
        | Some t1, Some t2 =>
            if Py.time_lt t1 t2
            then (AvailabilitySet,
                  set_availability db (availability db ++ [window]))
            else (EndTimeNotAfterStart, db)
        | _, _ => (InvalidTime, db)
        end
  | _, _ => (InvalidDate, db)
  end.
Proof.
  intros T1 T2 T3 T4. unfold result, doctor_add_availability.
  fold start_date end_date start_time end_time.
  rewrite T1, T2, T3, T4. simpl.
  unfold check_dates, check_times. rewrite Hmax.
  destruct (Py.strptime_date start_date) as [s|]; [|reflexivity].
  destruct (Py.strptime_date end_date) as [e|]; [|reflexivity].
  simpl. unfold Py.date_gt.
  rewrite (date_le_not_lt e max_date), (date_le_not_lt s e), !negb_involutive.
  destruct (Py.date_lt s today); [reflexivity|].
  destruct (Py.date_lt max_date e); [reflexivity|].
  destruct (Py.date_lt e s); [reflexivity|]. simpl.
  destruct (Py.strptime_time start_time) as [t1|]; [|reflexivity].
  destruct (Py.strptime_time end_time) as [t2|]; [|reflexivity].
  rewrite (time_le_not_lt t2 t1).
  destruct (Py.time_lt t1 t2); reflexivity.
Qed.

Lemma add_availability_missing_field :
  Py.truthy start_date && Py.truthy end_date
  && Py.truthy start_time && Py.truthy end_time = false ->
  result = (FieldsRequired, db).
Proof.
  intros H. unfold result, doctor_add_availability.
  fold start_date end_date start_time end_time.
  destruct (Py.truthy start_date), (Py.truthy end_date),
    (Py.truthy start_time), (Py.truthy end_time);
    try reflexivity; discriminate.
Qed.

(** C7 (amended). With the store committing: when one of the four fields
    is empty after trimming, nothing is appended and the answer is
    FieldsRequired.  Otherwise exactly one window is appended if and only if
    the conditions of registration all hold, and when they do not, nothing
    is appended and the answer is that of the first condition that fails,
    in the order InvalidDate, StartInPast, RangeTooFar, EndBeforeStart,
    InvalidTime, EndTimeNotAfterStart (equal times included). *)
Theorem C7_add_availability :
  (Py.truthy start_date && Py.truthy end_date
   && Py.truthy start_time && Py.truthy end_time = false ->
   result = (FieldsRequired, db))
  /\ (Py.truthy start_date && Py.truthy end_date
      && Py.truthy start_time && Py.truthy end_time = true ->
      (result = (AvailabilitySet,
                 set_availability db (availability db ++ [window]))
       <-> may_register today max_date
             start_date end_date start_time end_time)
      /\ (~ may_register today max_date
              start_date end_date start_time end_time ->
          snd result = db /\ fst result <> AvailabilitySet)
      /\ (Py.strptime_date start_date = None
          \/ Py.strptime_date end_date = None ->
          result = (InvalidDate, db))
      /\ (forall s e,
            Py.strptime_date start_date = Some s ->
            Py.strptime_date end_date = Some e ->
            (Py.date_lt s today = true -> result = (StartInPast, db))
            /\ (Py.date_lt s today = false ->
                Py.date_le e max_date = false ->
                result = (RangeTooFar, db))
            /\ (Py.date_lt s today = false ->
                Py.date_le e max_date = true ->
                Py.date_le s e = false ->
                result = (EndBeforeStart, db)))
      /\ (dates_ok today max_date start_date end_date ->
          (Py.strptime_time start_time = None
           \/ Py.strptime_time end_time = None ->
           result = (InvalidTime, db))
          /\ (forall t1 t2,
                Py.strptime_time start_time = Some t1 ->
                Py.strptime_time end_time = Some t2 ->
                Py.time_lt t1 t2 = false ->
                result = (EndTimeNotAfterStart, db)))).
Proof.
  split; [apply add_availability_missing_field|].
  intros Hall.
  apply andb_prop in Hall. destruct Hall as [Hall T4].
  apply andb_prop in Hall. destruct Hall as [Hall T3].
  apply andb_prop in Hall. destruct Hall as [T1 T2].
  rewrite (add_availability_with_fields T1 T2 T3 T4).
  unfold may_register, dates_ok, times_ok.
  destruct (Py.strptime_date start_date) as [s|]; [|avail_leaf].
  destruct (Py.strptime_date end_date) as [e|]; [|avail_leaf].
  destruct (Py.date_lt s today) eqn:D1; [avail_leaf|].
  destruct (Py.date_le e max_date) eqn:D2; [|avail_leaf].
  destruct (Py.date_le s e) eqn:D3; [|avail_leaf].
  simpl negb. cbv iota.
  destruct (Py.strptime_time start_time) as [t1|]; [|avail_leaf].
  destruct (Py.strptime_time end_time) as [t2|]; [|avail_leaf].
  destruct (Py.time_lt t1 t2) eqn:L; avail_leaf.
Qed.

End Availability.

(** C7, as stated, fails on a missing field: an empty start_date does not
    parse, yet the answer is FieldsRequired and not InvalidDate. *)
Lemma C7_empty_start_date_is_not_invalid_date :
  Py.strptime_date (Py.strip "") = None
  /\ doctor_add_availability db0 1
       (avail_req "" "2024-06-07" "09:00" "17:00") (Py.mkdate 2024 6 1) true
     = (FieldsRequired, db0)
  /\ FieldsRequired <> InvalidDate.
Proof.
  repeat split; try (vm_compute; reflexivity). discriminate.
Qed.

(** C8, as stated, fails: a time that is not HH:MM and a date that is not
    zero-padded are both accepted, and the row is written as sent. *)
Lemma C8_malformed_time_is_accepted :
  Py.strptime_time "1" = None
  /\ patient_book_appointment_post db0 5 (req "1" "2024-06-05" "1") true
     = (Accept,
        set_appointments db0
          [Appointment.mk 1 5 1 "2024-06-05" "1" "Booked" "checkup"])
  /\ patient_book_appointment_post db0 5 (req "1" "2024-6-5" "10:00") true
     = (Accept,
        set_appointments db0
          [Appointment.mk 1 5 1 "2024-6-5" "10:00" "Booked" "checkup"]).
Proof.
  repeat split; vm_compute; reflexivity.
Qed.

(** ** The scenarios of the specification, on the sample data *)

(** A cancelled appointment keeps its slot blocked. *)
Lemma cancelled_slot_still_taken :
  patient_book_appointment_post (db_with "Cancelled") 6
    (req "1" "2024-06-05" "10:00") true
  = (SlotTaken, db_with "Cancelled").
Proof.
  apply (slot_taken_any_status (db_with "Cancelled") 6
           (req "1" "2024-06-05" "10:00") true "1" (appt_with "Cancelled"));
    try reflexivity.
  simpl. left. reflexivity.
Qed.

(** A doctor id of 2^63 is refused by the driver. *)
Lemma doctor_id_beyond_64_bits_is_malformed :
  patient_book_appointment_post db0 5
    (req "9223372036854775808" "2024-06-05" "10:00") true
  = (MalformedInput, db0).
Proof.
  vm_compute. reflexivity.
Qed.

(** Patient 5 holds (doctor 1, 2024-06-05, 10:00) and asks for doctor 2 at
    the same time. *)
Lemma C2_same_time_other_doctor :
  patient_book_appointment_post (db_with "Booked") 5
    (req "2" "2024-06-05" "10:00") true
  = (PatientConflict, db_with "Booked").
Proof.
  apply (C2_patient_conflict_any_doctor (db_with "Booked") 5
           (req "2" "2024-06-05" "10:00") true "2" (appt_with "Booked"));
    try reflexivity.
  simpl. left. reflexivity.
Defined.

(** Doctor 3 has no window. *)
Lemma C3_doctor_without_window :
  patient_book_appointment_post db0 5 (req "3" "2024-06-05" "10:00") true
  = (NoAvailability, db0).
Proof.
  apply (C3_no_availability db0 5 (req "3" "2024-06-05" "10:00") true
           "3" 3 (Py.mkdate 2024 6 5)); try reflexivity.
  intros av [<- | [<- | []]]; discriminate.
Defined.

(** The last day of the window passes the date test. *)
Lemma C4_end_date_is_inside :
  fst (patient_book_appointment_post db0 5
         (req "1" "2024-06-07" "10:00") true) <> DateOutOfRange.
Proof.
  assert (H := C4_date_check_inclusive db0 5
                 (req "1" "2024-06-07" "10:00") true "1" 1
                 (Py.mkdate 2024 6 7) window_D
                 (Py.mkdate 2024 6 1) (Py.mkdate 2024 6 7)
                 eq_refl eq_refl eq_refl eq_refl eq_refl eq_refl eq_refl).
  apply H; [reflexivity | right; reflexivity].
Defined.

(** The last minute of the window passes the time test. *)
Lemma C5_end_time_is_inside :
  fst (patient_book_appointment_post db0 5
         (req "1" "2024-06-05" "17:00") true) <> TimeOutOfRange.
Proof.
  assert (H := C5_time_check_lexicographic db0 5
                 (req "1" "2024-06-05" "17:00") true "1" 1
                 (Py.mkdate 2024 6 5) window_D
                 (Py.mkdate 2024 6 1) (Py.mkdate 2024 6 7)
                 eq_refl eq_refl eq_refl eq_refl eq_refl eq_refl eq_refl
                 eq_refl eq_refl).
  apply H; [reflexivity | right; reflexivity].
Defined.


(** A window for tomorrow to the end of the week is registered. *)
Lemma C7_window_within_the_week_is_registered :
  doctor_add_availability db0 1
    (avail_req "2024-06-02" "2024-06-07" "09:00" "17:00")
    (Py.mkdate 2024 6 1) true
  = (AvailabilitySet,
     set_availability db0
       (availability db0 ++
        [DoctorAvailability.mk 3 1 "2024-06-02" "2024-06-07" "09:00" "17:00"])).
Proof.
  assert (H := C7_add_availability db0 1
                 (avail_req "2024-06-02" "2024-06-07" "09:00" "17:00")
                 (Py.mkdate 2024 6 1) (Py.mkdate 2024 6 8) eq_refl).
  destruct H as [_ H]. destruct (H eq_refl) as [[_ Hreg] _].
  apply Hreg. split.
  - exists (Py.mkdate 2024 6 2), (Py.mkdate 2024 6 7). repeat split.
  - exists (Py.mktime 9 0), (Py.mktime 17 0). repeat split.
Defined.

(** A date that is no date is rejected as malformed. *)
Lemma C8_junk_date_is_malformed :
  patient_book_appointment_post db0 5 (req "1" "junk" "10:00") true
  = (MalformedInput, db0).
Proof.
  apply (C8_unparsable_date_rejected db0 5 (req "1" "junk" "10:00") true "1");
    reflexivity.
Defined.

(** ** The day after, in ordinals *)

Ltac div_step :=
  match goal with
  | |- context [?y mod ?k =? 0] =>
      destruct (Z.eqb_spec (y mod k) 0); Z.div_mod_to_equations; lia
  end.

Lemma div_step_4 (y : Z) :
  y / 4 = (y - 1) / 4 + (if y mod 4 =? 0 then 1 else 0).
Proof. div_step. Qed.

Lemma div_step_100 (y : Z) :
  y / 100 = (y - 1) / 100 + (if y mod 100 =? 0 then 1 else 0).
Proof. div_step. Qed.

Lemma div_step_400 (y : Z) :
  y / 400 = (y - 1) / 400 + (if y mod 400 =? 0 then 1 else 0).
Proof. div_step. Qed.

Lemma mod_100_4 (y : Z) : y mod 100 = 0 -> y mod 4 = 0.
Proof. intros. Z.div_mod_to_equations. lia. Qed.

Lemma mod_400_100 (y : Z) : y mod 400 = 0 -> y mod 100 = 0.
Proof. intros. Z.div_mod_to_equations. lia. Qed.

Lemma days_before_next_year (y : Z) :
  Py.days_before_year (y + 1)
  = Py.days_before_year y + 365 + (if Py.is_leap y then 1 else 0).
Proof.
  unfold Py.days_before_year, Py.is_leap.
  replace (y + 1 - 1) with y by lia.
  rewrite (div_step_4 y), (div_step_100 y), (div_step_400 y).
  destruct (Z.eqb_spec (y mod 4) 0) as [H4|H4],
    (Z.eqb_spec (y mod 100) 0) as [H100|H100],
    (Z.eqb_spec (y mod 400) 0) as [H400|H400];
    cbn [negb orb andb]; cbv zeta;
    try (elim H100; now apply mod_400_100);
    try (elim H4; now apply mod_100_4);
    lia.
Qed.

Lemma days_before_next_month (y m : Z) :
  1 <= m < 12 ->
  Py.days_before_month y (m + 1)
  = Py.days_before_month y m + Py.days_in_month y m.
Proof.
  intros Hr.
  assert (Hm : m = 1 \/ m = 2 \/ m = 3 \/ m = 4 \/ m = 5 \/ m = 6 \/ m = 7
               \/ m = 8 \/ m = 9 \/ m = 10 \/ m = 11) by lia.
  unfold Py.days_before_month, Py.days_in_month.
  destruct (Py.is_leap y);
    repeat (destruct Hm as [-> | Hm]; [vm_compute; reflexivity|]);
    subst; vm_compute; reflexivity.
Qed.

Lemma days_before_january (y : Z) : Py.days_before_month y 1 = 0.
Proof.
  unfold Py.days_before_month. destruct (Py.is_leap y); reflexivity.
Qed.

Lemma days_to_end_of_december (y : Z) :
  Py.days_before_month y 12 + Py.days_in_month y 12
  = 365 + (if Py.is_leap y then 1 else 0).
Proof.
  unfold Py.days_before_month, Py.days_in_month.
  destruct (Py.is_leap y); reflexivity.
Qed.

(** [next_day] is [+ timedelta(days=1)] on the dates of the calendar. *)
Lemma toordinal_next_day (y m d : Z) (dt : Py.date) :
  Py.make_date y m d = Some dt ->
  Py.toordinal (Py.next_day dt) = Py.toordinal dt + 1.
Proof.
  unfold Py.make_date. intros H.
  destruct (_ && _) eqn:V in H; [|discriminate].
  inversion H; subst; clear H.
  repeat (apply andb_prop in V; destruct V as [V ?]).
  repeat match goal with
    | H : (_ <=? _) = true |- _ => apply Z.leb_le in H
    end.
  unfold Py.next_day, Py.toordinal. cbn [Py.year Py.month Py.day].
  destruct (Z.ltb_spec d (Py.days_in_month y m));
    cbn [Py.year Py.month Py.day]; [lia|].
  assert (Hd : d = Py.days_in_month y m) by lia. subst d.
  destruct (Z.ltb_spec m 12); cbn [Py.year Py.month Py.day].
  - rewrite days_before_next_month by lia. lia.
  - assert (m = 12) by lia. subst m.
    rewrite days_before_next_year, days_before_january.
    pose proof (days_to_end_of_december y). lia.
Qed.

Lemma strptime_date_next_day (s : string) (d : Py.date) :
  Py.strptime_date s = Some d ->
  Py.toordinal (Py.next_day d) = Py.toordinal d + 1.
Proof.
  unfold Py.strptime_date.
  destruct (Py.full_match Py.re_date s) as [[[y m] dd]|]; [|discriminate].
  apply toordinal_next_day.
Qed.

(** ** The booking scenario of the specification *)

Example scenario_accept :
  fst (patient_book_appointment_post db0 5
         (req "1" "2024-06-05" "10:00") true) = Accept.
Proof. vm_compute. reflexivity. Qed.

Example scenario_second_patient_same_slot :
  patient_book_appointment_post (db_with "Booked") 6
    (req "1" "2024-06-05" "10:00") true
  = (SlotTaken, db_with "Booked").
Proof. vm_compute. reflexivity. Qed.

Example scenario_day_after_window :
  patient_book_appointment_post db0 5 (req "1" "2024-06-08" "10:00") true
  = (DateOutOfRange, db0).
Proof. vm_compute. reflexivity. Qed.

Example scenario_minute_before_window :
  patient_book_appointment_post db0 5 (req "1" "2024-06-05" "08:59") true
  = (TimeOutOfRange, db0).
Proof. vm_compute. reflexivity. Qed.

Example scenario_equal_times_rejected :
  doctor_add_availability db0 1
    (avail_req "2024-06-02" "2024-06-07" "09:00" "09:00")
    (Py.mkdate 2024 6 1) true
  = (EndTimeNotAfterStart, db0).
Proof. vm_compute. reflexivity. Qed.

(** * Further properties of the handlers *)

(** ** Requests that change nothing *)

Ltac unfold_handlers :=
  unfold patient_book_appointment_post, book_after_checks,
    patient_reschedule_appointment_post, patient_cancel_appointment,
    admin_update_appointment_status, doctor_update_appointment_status,
    doctor_add_availability, doctor_delete_availability,
    admin_toggle_doctor_blacklist.

(** Splits on every test a handler makes, outermost first. *)
Ltac split_tests :=
  repeat match goal with
    | |- context [match ?x with _ => _ end] =>
        lazymatch x with
        | context [match _ with _ => _ end] => fail
        | _ => destruct x eqn:?
        end
    end.

Lemma role_required_granted rr s db f :
  role s = Some rr -> role_required rr s db f = f.
Proof.
  unfold role_required. intros ->. now rewrite String.eqb_refl.
Qed.

Lemma role_required_denied rr s db f :
  role s <> Some rr -> role_required rr s db f = (AccessDenied, db).
Proof.
  unfold role_required. intros H. destruct (role s) as [r|]; [|reflexivity].
  destruct (String.eqb_spec r rr); [subst; now elim H | reflexivity].
Qed.

(** X1. A request whose commit fails leaves the store as it was, whatever
    the handler and whatever it had written to the session objects: the
    handlers roll back. *)
Theorem X1_failed_commit_changes_nothing (db : DB) (e : Env) (r : Request) :
  commit_ok e = false -> snd (handle db e r) = db.
Proof.
  intros Hc. destruct r; simpl;
    match goal with
    | |- context [role_required ?rr ?s ?d ?f] =>
        destruct (role_required_cases rr s d f) as [-> | ->]
    end; try reflexivity; rewrite Hc; unfold_handlers;
    split_tests; reflexivity.
Qed.

(** X2. A request sent without a session role, or with the role of another
    kind of user, is turned away by [role_required] (AccessDenied stands
    for both of its redirects) and changes nothing. *)
Theorem X2_other_role_is_denied (db : DB) (e : Env) (r : Request) :
  role (session e) <> Some (required_role r) ->
  handle db e r = (AccessDenied, db).
Proof.
  intros H. destruct r; simpl in *; now apply role_required_denied.
Qed.

(** ** One request, seen from the ledger *)

Lemma handle_ledger_step (db : DB) (e : Env) (r : Request) :
  ledger_step db e r (appointments (snd (handle db e r))).
Proof.
  destruct r; simpl; unfold role_required;
    destruct (role (session e)) as [ro|] eqn:R; try apply step_same;
    match goal with
    | |- context [(ro =? ?rr)%string] =>
        destruct (String.eqb_spec ro rr) as [->|]; [|apply step_same]
    end.
  - (* book *)
    unfold patient_book_appointment_post.
    destruct (form_doctor_id form) as [doc_id|] eqn:Hd; [|apply step_same].
    destruct (_ || _); [apply step_same|].
    destruct (check_availability _ _ _ _); try apply step_same.
    unfold book_after_checks.
    destruct (find (same_slot _ _ _) _) eqn:F1; [apply step_same|].
    destruct (find (same_patient_time _ _ _) _) eqn:F2; [apply step_same|].
    destruct (Py.int doc_id) as [did|] eqn:Hi; [|apply step_same].
    destruct (commit_ok e); [|apply step_same].
    simpl. now apply step_book with (doc_id := doc_id).
  - (* reschedule *)
    unfold patient_reschedule_appointment_post.
    destruct (get_appointment db appt_id) as [appt|] eqn:G;
      [|apply step_same].
    destruct (Z.eqb_spec (Appointment.patient_id appt) (user_id (session e)));
      simpl; [|apply step_same].
    destruct (_ || _); [apply step_same|].
    destruct (find _ _) eqn:F; [apply step_same|].
    destruct (commit_ok e); [|apply step_same].
    simpl. now apply step_reschedule with (appt := appt).
  - (* cancel *)
    unfold patient_cancel_appointment.
    destruct (get_appointment db appt_id) as [appt|] eqn:G;
      [|apply step_same].
    destruct (Z.eqb_spec (Appointment.patient_id appt) (user_id (session e)));
      simpl; [|apply step_same].
    destruct (commit_ok e); [|apply step_same].
    simpl. apply step_status with (appt := appt); simpl; trivial.
    + apply Z.eqb_refl.
    + unfold known_status. tauto.
    + tauto.
    + discriminate.
  - (* admin status *)
    unfold admin_update_appointment_status.
    destruct (get_appointment db appt_id) as [appt|] eqn:G;
      [|apply step_same].
    destruct (valid_status status) as [st|] eqn:V; [|apply step_same].
    destruct (commit_ok e); [|apply step_same].
    simpl. apply step_status with (appt := appt); simpl; trivial.
    + apply Z.eqb_refl.
    + eapply valid_status_known; eauto.
    + discriminate.
    + discriminate.
  - (* doctor status *)
    unfold doctor_update_appointment_status.
    destruct (get_appointment db appt_id) as [appt|] eqn:G;
      [|apply step_same].
    destruct (Z.eqb_spec (Appointment.doctor_id appt) (user_id (session e)));
      simpl; [|apply step_same].
    destruct (valid_status status) as [st|] eqn:V; [|apply step_same].
    destruct (commit_ok e); [|apply step_same].
    simpl. apply step_status with (appt := appt); simpl; trivial.
    + apply Z.eqb_refl.
    + eapply valid_status_known; eauto.
    + discriminate.
  - (* add availability *)
    unfold doctor_add_availability.
    destruct (_ || _); [apply step_same|].
    destruct (flow_bind _ _); try apply step_same.
    destruct (commit_ok e); simpl; apply step_same.
  - (* delete availability *)
    unfold doctor_delete_availability.
    destruct (get_availability db avail_id); [|apply step_same].
    destruct (negb _); [apply step_same|].
    destruct (commit_ok e); simpl; apply step_same.
  - (* blacklist *)
    unfold admin_toggle_doctor_blacklist.
    destruct (get_doctor db doc_id); [|apply step_same].
    destruct (commit_ok e); simpl; apply step_same.
Qed.

(** ** Lists of rows *)

Lemma next_id_above (ids : list Z) (i : Z) : In i ids -> i < next_id ids.
Proof.
  unfold next_id. induction ids as [|x ids IH]; cbn [In fold_right];
    [tauto|].
  intros [-> | H]; [lia | specialize (IH H); lia].
Qed.

Lemma next_id_fresh (ids : list Z) : ~ In (next_id ids) ids.
Proof.
  intros H. apply next_id_above in H. lia.
Qed.

Lemma NoDup_snoc {A} (l : list A) (x : A) :
  NoDup l -> ~ In x l -> NoDup (l ++ [x]).
Proof.
  induction l as [|y l IH]; simpl; intros Hl Hx.
  - constructor; [tauto | constructor].
  - inversion Hl; subst. constructor.
    + rewrite in_app_iff. simpl. intros [H | [H | []]]; [tauto|].
      subst. tauto.
    + apply IH; tauto.
Qed.

Lemma NoDup_map_eq {A B} (f : A -> B) (l : list A) (a b : A) :
  NoDup (map f l) -> In a l -> In b l -> f a = f b -> a = b.
Proof.
  induction l as [|x l IH]; simpl; [tauto|].
  intros Hnd Ha Hb Hf. inversion Hnd as [|? ? Hx Hl]; subst.
  destruct Ha as [-> | Ha], Hb as [-> | Hb]; trivial.
  - elim Hx. rewrite Hf. now apply in_map.
  - elim Hx. rewrite <- Hf. now apply in_map.
  - now apply IH.
Qed.

Lemma write_row_ids j f l :
  (forall a, Appointment.id (f a) = Appointment.id a) ->
  map Appointment.id (write_row j f l) = map Appointment.id l.
Proof.
  intros Hid. unfold write_row. rewrite map_map. apply map_ext.
  intros a. destruct (Appointment.id a =? j); [apply Hid | reflexivity].
Qed.

Lemma in_write_row j f l b :
  In b (write_row j f l) ->
  exists a, In a l
            /\ b = (if Appointment.id a =? j then f a else a).
Proof.
  unfold write_row. rewrite in_map_iff. intros [a [<- Hin]]. now exists a.
Qed.

(** With distinct keys, the row [get] returns is the only row with the key. *)
Lemma get_appointment_unique db j appt a :
  distinct_ids db -> get_appointment db j = Some appt ->
  In a (appointments db) -> Appointment.id a = j -> a = appt.
Proof.
  intros Hnd G Hin Hid. unfold get_appointment in G.
  apply find_some in G. destruct G as [Hin' Hid']. apply Z.eqb_eq in Hid'.
  apply (NoDup_map_eq Appointment.id (appointments db)); try assumption.
  congruence.
Qed.

Lemma same_slot_hit doc_id did d t a :
  sql_numeric doc_id = Some did ->
  Appointment.doctor_id a = did -> Appointment.date a = d ->
  Appointment.time a = t -> same_slot doc_id d t a = true.
Proof.
  intros Hi <- <- <-. unfold same_slot, sql_int_eq. rewrite Hi.
  now rewrite Z.eqb_refl, !String.eqb_refl.
Qed.

Lemma plain_form_reading form doc_id did :
  plain_form form = true ->
  form_doctor_id form = Some doc_id ->
  Py.int doc_id = Some did -> sql_numeric doc_id = Some did.
Proof.
  unfold plain_form. intros Hp Hd Hi. rewrite Hd in Hp.
  apply andb_true_iff in Hp. destruct Hp as [_ Hp].
  apply int_plain_is_sql_numeric; [|exact Hi].
  now destruct (Py.has_underscore doc_id).
Qed.

(** ** The ledger keeps distinct keys and one row per slot *)

Lemma ledger_step_keeps_ids db e r l :
  ledger_step db e r l -> distinct_ids db -> NoDup (map Appointment.id l).
Proof.
  unfold distinct_ids. intros St Hnd. inversion St; subst; trivial.
  - rewrite map_app. simpl. apply NoDup_snoc; [assumption|].
    apply next_id_fresh.
  - now rewrite write_row_ids.
  - now rewrite write_row_ids.
Qed.

Lemma ledger_step_keeps_slots db e r l :
  ledger_step db e r l -> plain_doctor_id r = true ->
  distinct_ids db -> no_double_booking db ->
  forall a b, In a l -> In b l ->
    Appointment.doctor_id a = Appointment.doctor_id b ->
    Appointment.date a = Appointment.date b ->
    Appointment.time a = Appointment.time b ->
    Appointment.id a = Appointment.id b.
Proof.
  intros St Hplain Hnd Hok. inversion St; subst; trivial.
  - (* book *)
    intros a b Ha Hb Hd Hdt Ht.
    match goal with
    | Hf : form_doctor_id _ = Some _, Hi : Py.int _ = Some _ |- _ =>
        apply (plain_form_reading _ _ _ Hplain Hf) in Hi
    end.
    apply in_app_or in Ha. apply in_app_or in Hb.
    destruct Ha as [Ha | [<- | []]], Hb as [Hb | [<- | []]]; simpl in *;
      trivial.
    + now apply Hok.
    + exfalso.
      match goal with
      | Hi : sql_numeric _ = Some _,
        Hf : find (same_slot _ _ _) _ = None |- _ =>
          pose proof (same_slot_hit _ _ _ _ a Hi Hd Hdt Ht) as Hs;
          rewrite (find_none _ _ Hf a Ha) in Hs
      end. discriminate.
    + exfalso.
      match goal with
      | Hi : sql_numeric _ = Some _,
        Hf : find (same_slot _ _ _) _ = None |- _ =>
          pose proof (same_slot_hit _ _ _ _ b Hi
                        (eq_sym Hd) (eq_sym Hdt) (eq_sym Ht)) as Hs;
          rewrite (find_none _ _ Hf b Hb) in Hs
      end. discriminate.
  - (* reschedule *)
    intros a' b' Ha Hb Hd Hdt Ht.
    apply in_write_row in Ha. destruct Ha as [a [Ha ->]].
    apply in_write_row in Hb. destruct Hb as [b [Hb ->]].
    destruct (Z.eqb_spec (Appointment.id a) j) as [Ea|Ea],
      (Z.eqb_spec (Appointment.id b) j) as [Eb|Eb]; simpl in *.
    + congruence.
    + exfalso.
      match goal with
      | G : get_appointment db j = Some appt |- _ =>
          pose proof (get_appointment_unique db j appt a Hnd G Ha Ea)
      end. subst a.
      match goal with
      | Hf : find _ (appointments db) = None |- _ =>
          pose proof (find_none _ _ Hf b Hb) as Hn
      end. simpl in Hn.
      rewrite Hd, <- Hdt, <- Ht, Z.eqb_refl, !String.eqb_refl in Hn.
      apply Z.eqb_neq in Eb. rewrite Eb in Hn. discriminate.
    + exfalso.
      match goal with
      | G : get_appointment db j = Some appt |- _ =>
          pose proof (get_appointment_unique db j appt b Hnd G Hb Eb)
      end. subst b.
      match goal with
      | Hf : find _ (appointments db) = None |- _ =>
          pose proof (find_none _ _ Hf a Ha) as Hn
      end. simpl in Hn.
      rewrite <- Hd, Hdt, Ht, Z.eqb_refl, !String.eqb_refl in Hn.
      apply Z.eqb_neq in Ea. rewrite Ea in Hn. discriminate.
    + now apply Hok.
  - (* status *)
    intros a' b' Ha Hb Hd Hdt Ht.
    apply in_write_row in Ha. destruct Ha as [a [Ha ->]].
    apply in_write_row in Hb. destruct Hb as [b [Hb ->]].
    assert (Hk : forall x,
               Appointment.id (if Appointment.id x =? j
                               then with_status st x else x)
               = Appointment.id x
               /\ Appointment.doctor_id (if Appointment.id x =? j
                                         then with_status st x else x)
                  = Appointment.doctor_id x
               /\ Appointment.date (if Appointment.id x =? j
                                    then with_status st x else x)
                  = Appointment.date x
               /\ Appointment.time (if Appointment.id x =? j
                                    then with_status st x else x)
                  = Appointment.time x).
    { intros x. destruct (Appointment.id x =? j); simpl; tauto. }
    destruct (Hk a) as [-> [A1 [A2 A3]]]. destruct (Hk b) as [-> [B1 [B2 B3]]].
    apply Hok; congruence.
Qed.

Lemma handle_keeps_ledger db e r :
  plain_doctor_id r = true ->
  distinct_ids db /\ no_double_booking db ->
  distinct_ids (snd (handle db e r))
  /\ no_double_booking (snd (handle db e r)).
Proof.
  intros Hplain [Hnd Hok].
  pose proof (handle_ledger_step db e r) as St. split.
  - exact (ledger_step_keeps_ids _ _ _ _ St Hnd).
  - exact (ledger_step_keeps_slots _ _ _ _ St Hplain Hnd Hok).
Qed.

(** X3. Starting from a ledger with distinct keys in which no two rows are
    on the same (doctor, date, time), every sequence of requests, from any
    sessions and with any commit outcomes, in which the doctor id of every
    booking form is ASCII text without underscore, ends in such a ledger:
    bookings, reschedules, cancellations and status updates never put two
    rows, of whatever status, on one slot.  (A doctor id with an underscore
    does break it: the slot query is given the field as it was sent, see
    C1.) *)
Theorem X3_no_double_booking_is_invariant
    (db : DB) (reqs : list (Env * Request)) :
  (forall e r, In (e, r) reqs -> plain_doctor_id r = true) ->
  distinct_ids db -> no_double_booking db ->
  distinct_ids (run db reqs) /\ no_double_booking (run db reqs).
Proof.
  intros Hplain Hnd Hok.
  assert (H : distinct_ids db /\ no_double_booking db)
    by (split; assumption). clear Hnd Hok. revert db H.
  induction reqs as [|[e r] rest IH]; intros db H; simpl; [exact H|].
  apply IH.
  - intros e' r' Hin. apply (Hplain e' r'). now right.
  - apply handle_keeps_ledger; [|exact H].
    apply (Hplain e r). now left.
Qed.

(** ** One request, seen from the registry *)

Lemma add_availability_accepts db doc_id form today ok w :
  snd (doctor_add_availability db doc_id form today ok)
  = set_availability db (availability db ++ [w]) ->
  exists max_date,
    Py.date_add_days today 7 = Some max_date
    /\ may_register today max_date
         (Py.strip (form_start_date form)) (Py.strip (form_end_date form))
         (Py.strip (form_start_time form)) (Py.strip (form_end_time form)).
Proof.
  assert (Hneq : forall l : list DoctorAvailability.t, l ++ [w] <> l).
  { intros l H. apply (f_equal (@List.length _)) in H.
    rewrite length_app in H. simpl in H. lia. }
  assert (Hno : db = set_availability db (availability db ++ [w]) -> False).
  { intros H. apply (f_equal availability) in H. simpl in H.
    symmetry in H. now apply Hneq in H. }
  unfold doctor_add_availability, check_dates, check_times.
  destruct (_ || _); [intros H; now elim Hno|].
  destruct (Py.strptime_date (Py.strip (form_start_date form)))
    as [s|] eqn:Ps; [|intros H; now elim Hno].
  destruct (Py.strptime_date (Py.strip (form_end_date form)))
    as [en|] eqn:Pe; [|intros H; now elim Hno].
  destruct (Py.date_add_days today 7) as [max_date|] eqn:Hmax;
    [|intros H; now elim Hno].
  simpl.
  destruct (Py.date_lt s today) eqn:D1; [intros H; now elim Hno|].
  destruct (Py.date_gt en max_date) eqn:D2; [intros H; now elim Hno|].
  destruct (Py.date_lt en s) eqn:D3; [intros H; now elim Hno|].
  simpl.
  destruct (Py.strptime_time (Py.strip (form_start_time form)))
    as [t1|] eqn:P1; [|intros H; now elim Hno].
  destruct (Py.strptime_time (Py.strip (form_end_time form)))
    as [t2|] eqn:P2; [|intros H; now elim Hno].
  destruct (Py.time_le t2 t1) eqn:L; [intros H; now elim Hno|].
  simpl. destruct ok; [|intros H; now elim Hno].
  intros _. exists max_date. split; [reflexivity|].
  unfold Py.date_gt in D2.
  split.
  - exists s, en. repeat split; trivial.
    + rewrite date_le_not_lt, D2. reflexivity.
    + rewrite date_le_not_lt, D3. reflexivity.
  - exists t1, t2. repeat split; trivial.
    rewrite time_le_not_lt in L. now apply negb_false_iff in L.
Qed.

Lemma handle_registry_step (db : DB) (e : Env) (r : Request) :
  registry_step db e r (availability (snd (handle db e r))).
Proof.
  destruct r; simpl; unfold role_required;
    destruct (role (session e)) as [ro|] eqn:R; try apply reg_same;
    match goal with
    | |- context [(ro =? ?rr)%string] =>
        destruct (String.eqb_spec ro rr) as [->|]; [|apply reg_same]
    end.
  - destruct (book_store_cases db (user_id (session e)) form (commit_ok e))
      as [-> | [a ->]]; simpl; apply reg_same.
  - unfold patient_reschedule_appointment_post.
    split_tests; simpl; apply reg_same.
  - unfold patient_cancel_appointment. split_tests; simpl; apply reg_same.
  - unfold admin_update_appointment_status.
    split_tests; simpl; apply reg_same.
  - unfold doctor_update_appointment_status.
    split_tests; simpl; apply reg_same.
  - (* add *)
    pose proof (add_availability_accepts db (user_id (session e)) form
                  (today e) (commit_ok e)) as Hacc.
    unfold doctor_add_availability in *.
    destruct (_ || _); [apply reg_same|].
    destruct (flow_bind _ _); try apply reg_same.
    destruct (commit_ok e); [|apply reg_same].
    simpl in *. destruct (Hacc _ eq_refl) as [max_date [Hmax Hreg]].
    now apply reg_add with (max_date := max_date).
  - (* delete *)
    unfold doctor_delete_availability.
    destruct (get_availability db avail_id) as [w|] eqn:G; [|apply reg_same].
    destruct (Z.eqb_spec (DoctorAvailability.doctor_id w)
                         (user_id (session e))); simpl; [|apply reg_same].
    destruct (commit_ok e); [|apply reg_same].
    simpl. now apply reg_delete with (w := w).
  - unfold admin_toggle_doctor_blacklist.
    split_tests; simpl; apply reg_same.
Qed.

(** ** One appointment per patient and time, as long as nothing is
    rescheduled *)

Lemma same_patient_time_hit p d t a :
  Appointment.patient_id a = p -> Appointment.date a = d ->
  Appointment.time a = t -> same_patient_time p d t a = true.
Proof.
  intros <- <- <-. unfold same_patient_time.
  now rewrite Z.eqb_refl, !String.eqb_refl.
Qed.

Lemma ledger_step_keeps_patients db e r l :
  ledger_step db e r l -> is_reschedule r = false -> no_patient_clash db ->
  forall a b, In a l -> In b l ->
    Appointment.patient_id a = Appointment.patient_id b ->
    Appointment.date a = Appointment.date b ->
    Appointment.time a = Appointment.time b ->
    Appointment.id a = Appointment.id b.
Proof.
  intros St Hr Hok. inversion St; subst; trivial; try discriminate.
  - intros a b Ha Hb Hp Hdt Ht.
    apply in_app_or in Ha. apply in_app_or in Hb.
    destruct Ha as [Ha | [<- | []]], Hb as [Hb | [<- | []]]; simpl in *;
      trivial.
    + now apply Hok.
    + exfalso.
      match goal with
      | Hf : find (same_patient_time _ _ _) _ = None |- _ =>
          pose proof (same_patient_time_hit _ _ _ a Hp Hdt Ht) as Hs;
          rewrite (find_none _ _ Hf a Ha) in Hs
      end. discriminate.
    + exfalso.
      match goal with
      | Hf : find (same_patient_time _ _ _) _ = None |- _ =>
          pose proof (same_patient_time_hit _ _ _ b
                        (eq_sym Hp) (eq_sym Hdt) (eq_sym Ht)) as Hs;
          rewrite (find_none _ _ Hf b Hb) in Hs
      end. discriminate.
  - intros a' b' Ha Hb Hp Hdt Ht.
    apply in_write_row in Ha. destruct Ha as [a [Ha ->]].
    apply in_write_row in Hb. destruct Hb as [b [Hb ->]].
    destruct (Appointment.id a =? j), (Appointment.id b =? j); simpl in *;
      now apply Hok.
Qed.

(** X4. Starting from a ledger in which no patient has two rows at one
    (date, time), every sequence of requests that contains no reschedule
    ends in such a ledger.  (A reschedule runs no patient test.) *)
Theorem X4_no_patient_clash_without_reschedule
    (db : DB) (reqs : list (Env * Request)) :
  no_patient_clash db ->
  (forall e r, In (e, r) reqs -> is_reschedule r = false) ->
  no_patient_clash (run db reqs).
Proof.
  revert db. induction reqs as [|[e r] rest IH]; intros db Hok Hno; simpl;
    [exact Hok|].
  apply IH.
  - unfold no_patient_clash.
    apply (ledger_step_keeps_patients db e r _ (handle_ledger_step db e r)).
    + apply (Hno e r). now left.
    + exact Hok.
  - intros e' r' Hin. apply (Hno e' r'). now right.
Qed.

(** ** Rows stay, and stay with their patient and doctor *)

Lemma same_booking_trans a b c :
  same_booking a b -> same_booking b c -> same_booking a c.
Proof.
  unfold same_booking. intuition congruence.
Qed.

Lemma ledger_step_keeps_row db e r l i a :
  ledger_step db e r l ->
  find (fun x => Appointment.id x =? i) (appointments db) = Some a ->
  exists a', find (fun x => Appointment.id x =? i) l = Some a'
             /\ same_booking a a'.
Proof.
  intros St F. inversion St; subst.
  - exists a. unfold same_booking. tauto.
  - exists a. split; [now apply find_app_some | unfold same_booking; tauto].
  - unfold write_row. rewrite find_id_map, F.
    + eexists. split; [reflexivity|].
      destruct (Appointment.id a =? j); unfold same_booking; simpl; tauto.
    + intros x. now destruct (Appointment.id x =? j).
  - unfold write_row. rewrite find_id_map, F.
    + eexists. split; [reflexivity|].
      destruct (Appointment.id a =? j); unfold same_booking; simpl; tauto.
    + intros x. now destruct (Appointment.id x =? j).
Qed.

(** X5. No handler deletes an appointment or hands it to another patient
    or doctor: a row found under a key is, after any sequence of requests,
    still found under that key, with the same patient, doctor and reason. *)
Theorem X5_appointments_keep_their_parties
    (db : DB) (reqs : list (Env * Request)) (i : Z) (a : Appointment.t) :
  get_appointment db i = Some a ->
  exists a', get_appointment (run db reqs) i = Some a' /\ same_booking a a'.
Proof.
  revert db a. induction reqs as [|[e r] rest IH]; intros db a G; simpl.
  - exists a. unfold same_booking. tauto.
  - destruct (ledger_step_keeps_row db e r _ i a
                (handle_ledger_step db e r) G) as [a1 [G1 S1]].
    destruct (IH _ _ G1) as [a2 [G2 S2]].
    exists a2. split; [exact G2 | eapply same_booking_trans; eauto].
Qed.

(** ** What a patient and a doctor can reach *)

Lemma write_row_keeps j f l a :
  In a l -> Appointment.id a <> j -> In a (write_row j f l).
Proof.
  intros Hin Hne. unfold write_row. apply in_map_iff. exists a.
  split; [|exact Hin]. apply Z.eqb_neq in Hne. now rewrite Hne.
Qed.

Lemma ledger_step_patient db e r l a :
  ledger_step db e r l ->
  role (session e) = Some "patient" ->
  distinct_ids db ->
  In a (appointments db) ->
  Appointment.patient_id a <> user_id (session e) ->
  In a l.
Proof.
  intros St Hrole Hnd Hin Hother.
  inversion St as [ | | j d t appt _ G Hown _ | r' j st appt _ Hr G _ Hp _ ];
    subst.
  - exact Hin.
  - apply in_or_app. now left.
  - apply write_row_keeps; [exact Hin|]. intros Hid.
    rewrite (get_appointment_unique db j appt a Hnd G Hin Hid) in Hother.
    contradiction.
  - apply write_row_keeps; [exact Hin|]. intros Hid.
    rewrite (get_appointment_unique db j appt a Hnd G Hin Hid) in Hother.
    assert (Hreq : required_role r = "patient") by congruence.
    destruct (Hp Hreq) as [Hown _]. contradiction.
Qed.

(** X6. With distinct keys, the requests of a patient leave the rows of
    every other patient exactly as they are. *)
Theorem X6_patient_cannot_touch_others
    (db : DB) (e : Env) (r : Request) (a : Appointment.t) :
  role (session e) = Some "patient" ->
  distinct_ids db ->
  In a (appointments db) ->
  Appointment.patient_id a <> user_id (session e) ->
  In a (appointments (snd (handle db e r))).
Proof.
  intros. eapply ledger_step_patient; eauto using handle_ledger_step.
Qed.

Lemma get_availability_unique db j w a :
  distinct_window_ids db -> get_availability db j = Some w ->
  In a (availability db) -> DoctorAvailability.id a = j -> a = w.
Proof.
  intros Hnd G Hin Hid. unfold get_availability in G.
  apply find_some in G. destruct G as [Hin' Hid']. apply Z.eqb_eq in Hid'.
  apply (NoDup_map_eq DoctorAvailability.id (availability db));
    try assumption.
  congruence.
Qed.

Lemma ledger_step_doctor db e r l a :
  ledger_step db e r l ->
  role (session e) = Some "doctor" ->
  distinct_ids db ->
  In a (appointments db) ->
  Appointment.doctor_id a <> user_id (session e) ->
  In a l.
Proof.
  intros St Hrole Hnd Hin Hother.
  inversion St as [ | ? ? ? Hr | ? ? ? ? Hr
                    | r' j st appt _ Hr G _ _ Hd ]; subst;
    try congruence.
  apply write_row_keeps; [exact Hin|]. intros Hid.
  rewrite (get_appointment_unique db j appt a Hnd G Hin Hid) in Hother.
  assert (Hreq : required_role r = "doctor") by congruence.
  specialize (Hd Hreq). contradiction.
Qed.

Lemma registry_step_doctor db e r l w :
  registry_step db e r l ->
  distinct_window_ids db ->
  In w (availability db) ->
  DoctorAvailability.doctor_id w <> user_id (session e) ->
  In w l.
Proof.
  intros St Hwd Hin Hother.
  inversion St as [ | | j w0 _ G Hown ]; subst.
  - exact Hin.
  - apply in_or_app. now left.
  - apply filter_In. split; [exact Hin|].
    apply negb_true_iff, Z.eqb_neq. intros Hid.
    rewrite (get_availability_unique db j w0 w Hwd G Hin Hid) in Hother.
    contradiction.
Qed.

(** X7. With distinct keys, the requests of a doctor leave the appointments
    and the windows of every other doctor exactly as they are. *)
Theorem X7_doctor_cannot_touch_others (db : DB) (e : Env) (r : Request) :
  role (session e) = Some "doctor" ->
  distinct_ids db -> distinct_window_ids db ->
  (forall a, In a (appointments db) ->
             Appointment.doctor_id a <> user_id (session e) ->
             In a (appointments (snd (handle db e r))))
  /\ (forall w, In w (availability db) ->
                DoctorAvailability.doctor_id w <> user_id (session e) ->
                In w (availability (snd (handle db e r)))).
Proof.
  intros Hrole Hnd Hwd. split.
  - intros a Hin Hother.
    eapply ledger_step_doctor; eauto using handle_ledger_step.
  - intros w Hin Hother.
    eapply registry_step_doctor; eauto using handle_registry_step.
Qed.

(** ** Windows: which one a booking sees *)

Lemma find_snoc {A} (p : A -> bool) (l : list A) (x : A) :
  find p (l ++ [x])
  = match find p l with
    | Some y => Some y
    | None => if p x then Some x else None
    end.
Proof.
  induction l as [|y l IH]; simpl; [reflexivity|].
  destruct (p y); [reflexivity | exact IH].
Qed.

(** The answer of a booking depends on the registry only through the
    window it consults. *)
Lemma book_outcome_same_window db db' pat_id form ok :
  appointments db' = appointments db ->
  (forall doc_id did,
     form_doctor_id form = Some doc_id -> Py.int doc_id = Some did ->
     first_window db' did = first_window db did) ->
  fst (patient_book_appointment_post db' pat_id form ok)
  = fst (patient_book_appointment_post db pat_id form ok).
Proof.
  intros Happ Hwin. unfold patient_book_appointment_post.
  destruct (form_doctor_id form) as [doc_id|] eqn:Hd; [|reflexivity].
  destruct (_ || _); [reflexivity|].
  assert (Hc : check_availability db' doc_id (Py.strip (form_date form))
                 (Py.strip (form_time form))
               = check_availability db doc_id (Py.strip (form_date form))
                   (Py.strip (form_time form))).
  { unfold check_availability.
    destruct (Py.strptime_date _); [|reflexivity]. simpl.
    destruct (Py.int doc_id) as [did|] eqn:Hi; [|reflexivity]. simpl.
    pose proof (Hwin doc_id did eq_refl Hi) as Hw.
    unfold first_window in Hw. now rewrite Hw. }
  rewrite Hc.
  destruct (check_availability db doc_id _ _); try reflexivity.
  unfold book_after_checks. rewrite Happ.
  destruct (find (same_slot _ _ _) _); [reflexivity|].
  destruct (find (same_patient_time _ _ _) _); [reflexivity|].
  destruct (Py.int doc_id); [|reflexivity].
  destruct ok; reflexivity.
Qed.

Lemma add_availability_result db doc_id form today ok :
  (fst (doctor_add_availability db doc_id form today ok) <> AvailabilitySet
   /\ snd (doctor_add_availability db doc_id form today ok) = db)
  \/ doctor_add_availability db doc_id form today ok
     = (AvailabilitySet,
        set_availability db
          (availability db ++
           [DoctorAvailability.mk
              (next_id (map DoctorAvailability.id (availability db)))
              doc_id
              (Py.strip (form_start_date form)) (Py.strip (form_end_date form))
              (Py.strip (form_start_time form))
              (Py.strip (form_end_time form))])).
Proof.
  unfold doctor_add_availability, check_dates, check_times.
  destruct (_ || _); [left; split; [discriminate | reflexivity]|].
  destruct (Py.strptime_date (Py.strip (form_start_date form)));
    [|left; split; [discriminate | reflexivity]].
  destruct (Py.strptime_date (Py.strip (form_end_date form)));
    [|left; split; [discriminate | reflexivity]].
  destruct (Py.date_add_days today 7);
    [|left; split; [discriminate | reflexivity]].
  simpl.
  destruct (Py.date_lt _ today);
    [left; split; [discriminate | reflexivity]|].
  destruct (Py.date_gt _ _); [left; split; [discriminate | reflexivity]|].
  destruct (Py.date_lt _ _); [left; split; [discriminate | reflexivity]|].
  simpl.
  destruct (Py.strptime_time (Py.strip (form_start_time form)));
    [|left; split; [discriminate | reflexivity]].
  destruct (Py.strptime_time (Py.strip (form_end_time form)));
    [|left; split; [discriminate | reflexivity]].
  destruct (Py.time_le _ _); [left; split; [discriminate | reflexivity]|].
  simpl. destruct ok; [now right | left; split; [discriminate | reflexivity]].
Qed.

(** X8. Registering a window for a doctor who has one already changes the
    answer of no booking: the booking handler goes on consulting the
    doctor's first window.  Only a request for this doctor, when the
    doctor had no window, can be answered differently. *)
Theorem X8_further_window_is_not_consulted
    (db : DB) (doc_id : Z) (aform : AvailForm) (today : Py.date)
    (ok : bool) (pat_id : Z) (form : BookForm) (ok' : bool) :
  (forall doc, form_doctor_id form = Some doc ->
               Py.int doc = Some doc_id ->
               first_window db doc_id <> None) ->
  fst (patient_book_appointment_post
         (snd (doctor_add_availability db doc_id aform today ok))
         pat_id form ok')
  = fst (patient_book_appointment_post db pat_id form ok').
Proof.
  intros Hhas.
  destruct (add_availability_result db doc_id aform today ok)
    as [[_ ->] | ->]; [reflexivity|].
  apply book_outcome_same_window; [reflexivity|].
  intros doc did Hd Hi. unfold first_window. simpl. rewrite find_snoc.
  destruct (find _ (availability db)) eqn:F; [reflexivity|]. simpl.
  destruct (Z.eqb_spec doc_id did) as [<-|]; [|reflexivity].
  elim (Hhas doc Hd Hi). exact F.
Qed.

Lemma set_availability_same db :
  set_availability db (availability db) = db.
Proof. now destruct db. Qed.

Lemma filter_fresh_window (l : list DoctorAvailability.t) :
  filter (fun a => negb (DoctorAvailability.id a
                         =? next_id (map DoctorAvailability.id l))) l
  = l.
Proof.
  assert (H : forall (l0 : list DoctorAvailability.t) (n : Z),
             (forall a, In a l0 -> DoctorAvailability.id a < n) ->
             filter (fun a => negb (DoctorAvailability.id a =? n)) l0 = l0).
  { induction l0 as [|a l0 IH]; intros n Hn; simpl; [reflexivity|].
    assert (Ha : DoctorAvailability.id a < n) by (apply Hn; now left).
    apply Z.lt_neq, Z.eqb_neq in Ha. rewrite Ha. simpl. f_equal.
    apply IH. intros b Hb. apply Hn. now right. }
  apply H. intros a Ha. apply next_id_above. now apply in_map.
Qed.

(** X9. Deleting the window that was just registered gives back the store
    as it was before the registration. *)
Theorem X9_add_then_delete_window
    (db : DB) (doc_id : Z) (form : AvailForm) (today : Py.date) :
  fst (doctor_add_availability db doc_id form today true) = AvailabilitySet ->
  doctor_delete_availability
    (snd (doctor_add_availability db doc_id form today true)) doc_id
    (next_id (map DoctorAvailability.id (availability db))) true
  = (AvailabilityDeleted, db).
Proof.
  intros Hadd.
  destruct (add_availability_result db doc_id form today true)
    as [[Hne _] | ->]; [contradiction|].
  unfold doctor_delete_availability, get_availability. simpl.
  rewrite find_snoc.
  destruct (find _ (availability db)) as [w|] eqn:F.
  - apply find_some in F. destruct F as [Hin Hid]. apply Z.eqb_eq in Hid.
    exfalso. apply (next_id_fresh (map DoctorAvailability.id (availability db))).
    rewrite <- Hid. now apply in_map.
  - simpl. rewrite !Z.eqb_refl. simpl.
    rewrite filter_app. simpl. rewrite Z.eqb_refl. simpl.
    rewrite app_nil_r, filter_fresh_window.
    unfold set_availability. simpl. now destruct db.
Qed.

(** ** Windows: what the registry holds *)

Lemma registry_step_keeps_ok db e r l :
  registry_step db e r l -> registry_ok db ->
  forall x, In x l -> window_ok x.
Proof.
  intros St Hok. inversion St as [ | form max_date _ _ Hreg | ]; subst.
  - exact Hok.
  - intros x Hin. apply in_app_or in Hin. destruct Hin as [Hin | [<- | []]];
      [now apply Hok|].
    destruct Hreg as [[s [en [Ps [Pe [_ [_ Hse]]]]]] [t1 [t2 [P1 [P2 L]]]]].
    exists s, en, t1, t2. simpl. tauto.
  - intros x Hin. apply filter_In in Hin. now apply Hok.
Qed.

(** X10. If every window of the registry has dates and times that parse,
    in order, then so has every window after any sequence of requests:
    nothing else is let in by [doctor_add_availability]. *)
Theorem X10_registry_stays_well_formed
    (db : DB) (reqs : list (Env * Request)) :
  registry_ok db -> registry_ok (run db reqs).
Proof.
  revert db. induction reqs as [|[e r] rest IH]; intros db Hok; simpl;
    [exact Hok|].
  apply IH. unfold registry_ok.
  exact (registry_step_keeps_ok db e r _ (handle_registry_step db e r) Hok).
Qed.


(** ** Submitting a booking twice *)

Lemma book_accept_inv db pat_id form ok :
  fst (patient_book_appointment_post db pat_id form ok) = Accept ->
  exists doc_id did,
    form_doctor_id form = Some doc_id
    /\ negb (Py.truthy doc_id)
       || negb (Py.truthy (Py.strip (form_date form)))
       || negb (Py.truthy (Py.strip (form_time form))) = false
    /\ check_availability db doc_id (Py.strip (form_date form))
         (Py.strip (form_time form)) = Continue tt
    /\ find (same_slot doc_id (Py.strip (form_date form))
                       (Py.strip (form_time form)))
            (appointments db) = None
    /\ find (same_patient_time pat_id (Py.strip (form_date form))
                               (Py.strip (form_time form)))
            (appointments db) = None
    /\ Py.int doc_id = Some did
    /\ patient_book_appointment_post db pat_id form ok
       = (Accept,
          set_appointments db
            (appointments db ++
             [Appointment.mk (next_id (map Appointment.id (appointments db)))
                pat_id did (Py.strip (form_date form))
                (Py.strip (form_time form)) "Booked"
                (Py.strip (form_reason form))])).
Proof.
  unfold patient_book_appointment_post.
  destruct (form_doctor_id form) as [doc_id|] eqn:Hd; [|discriminate].
  destruct (_ || _) eqn:Hf; [discriminate|].
  pose proof (check_availability_answers db pat_id form ok doc_id) as Ha.
  simpl in Ha.
  destruct (check_availability db doc_id _ _) as [[]|o|] eqn:Hc;
    [| |discriminate].
  2:{ simpl. intros ->. simpl in Ha. intuition discriminate. }
  unfold book_after_checks.
  destruct (find (same_slot _ _ _) _) eqn:F1; [discriminate|].
  destruct (find (same_patient_time _ _ _) _) eqn:F2; [discriminate|].
  destruct (Py.int doc_id) as [did|] eqn:Hi; [|discriminate].
  destruct ok; [|discriminate].
  intros _. exists doc_id, did. repeat split; trivial.
Qed.

(** X12. After a booking is accepted whose doctor id is ASCII text without
    underscore, the same request sent again, by the same or by any other
    patient, is answered SlotTaken and changes nothing.  (With an
    underscore in the doctor id the slot query finds no row and the second
    request is accepted as well, see C1.) *)
Theorem X12_second_submission_is_slot_taken
    (db : DB) (pat_id : Z) (form : BookForm) (other : Z) (ok : bool) :
  plain_form form = true ->
  fst (patient_book_appointment_post db pat_id form true) = Accept ->
  patient_book_appointment_post
    (snd (patient_book_appointment_post db pat_id form true)) other form ok
  = (SlotTaken, snd (patient_book_appointment_post db pat_id form true)).
Proof.
  intros Hplain Hacc.
  destruct (book_accept_inv db pat_id form true Hacc)
    as [doc_id [did [Hd [Hf [Hc [F1 [F2 [Hi ->]]]]]]]].
  apply (plain_form_reading form doc_id did Hplain Hd) in Hi.
  simpl snd. unfold patient_book_appointment_post at 1. rewrite Hd, Hf.
  change (check_availability
            (set_appointments db _) doc_id
            (Py.strip (form_date form)) (Py.strip (form_time form)))
    with (check_availability db doc_id
            (Py.strip (form_date form)) (Py.strip (form_time form))).
  rewrite Hc. unfold book_after_checks. simpl appointments.
  rewrite find_snoc, F1.
  rewrite (same_slot_hit doc_id did (Py.strip (form_date form))
             (Py.strip (form_time form))); trivial.
Qed.

(** ** Blocking and unblocking a doctor *)

Lemma toggle_doctor_result db j ok :
  match get_doctor db j with
  | None => admin_toggle_doctor_blacklist db j ok = (NotFound, db)
  | Some d =>
      admin_toggle_doctor_blacklist db j ok
      = if ok
        then (BlacklistToggled,
              set_doctors db
                (map (fun x =>
                        if Doctor.id x =? j
                        then Doctor.mk (Doctor.id x) (Doctor.name x)
                               (Doctor.specialization x)
                               (Some (negb match Doctor.is_blacklisted d with
                                           | Some b => b
                                           | None => false
                                           end))
                        else x)
                     (doctors db)))
        else (UpdateError, db)
  end.
Proof.
  unfold admin_toggle_doctor_blacklist.
  destruct (get_doctor db j); reflexivity.
Qed.

Lemma get_doctor_unique db j d x :
  distinct_doctor_ids db -> get_doctor db j = Some d ->
  In x (doctors db) -> Doctor.id x = j -> x = d.
Proof.
  intros Hnd G Hin Hid. unfold get_doctor in G.
  apply find_some in G. destruct G as [Hin' Hid']. apply Z.eqb_eq in Hid'.
  apply (NoDup_map_eq Doctor.id (doctors db)); try assumption. congruence.
Qed.

Lemma find_doctor_map (g : Doctor.t -> Doctor.t) (j : Z) (l : list Doctor.t) :
  (forall x, Doctor.id (g x) = Doctor.id x) ->
  find (fun x => Doctor.id x =? j) (map g l)
  = option_map g (find (fun x => Doctor.id x =? j) l).
Proof.
  intros Hid. induction l as [|x l IH]; simpl; [reflexivity|].
  rewrite Hid. destruct (Doctor.id x =? j); [reflexivity | exact IH].
Qed.

Lemma toggle_doctor_step db j d b :
  get_doctor db j = Some d ->
  Doctor.is_blacklisted d = Some b ->
  snd (admin_toggle_doctor_blacklist db j true)
  = set_doctors db (map (set_flag j (negb b)) (doctors db)).
Proof.
  intros G Hb. pose proof (toggle_doctor_result db j true) as T.
  rewrite G, Hb in T. rewrite T. reflexivity.
Qed.

Lemma get_doctor_set_flag db j b d :
  get_doctor db j = Some d ->
  get_doctor (set_doctors db (map (set_flag j b) (doctors db))) j
  = Some (set_flag j b d).
Proof.
  intros G. unfold get_doctor in *. simpl. rewrite find_doctor_map, G.
  - reflexivity.
  - intros x. unfold set_flag. now destruct (Doctor.id x =? j).
Qed.

(** X13. With distinct doctor keys, toggling the blacklist flag of a doctor
    twice gives back the store, provided the flag was set to start with
    (a null flag becomes False, not null). *)
Theorem X13_toggle_twice_restores
    (db : DB) (j : Z) (d : Doctor.t) (b : bool) :
  distinct_doctor_ids db ->
  get_doctor db j = Some d ->
  Doctor.is_blacklisted d = Some b ->
  snd (admin_toggle_doctor_blacklist
         (snd (admin_toggle_doctor_blacklist db j true)) j true)
  = db.
Proof.
  intros Hnd G Hb.
  assert (Hid : Doctor.id d = j).
  { unfold get_doctor in G. apply find_some in G. now apply Z.eqb_eq. }
  rewrite (toggle_doctor_step db j d b G Hb).
  rewrite (toggle_doctor_step _ j (set_flag j (negb b) d) (negb b)
             (get_doctor_set_flag db j (negb b) d G)).
  2:{ unfold set_flag. apply Z.eqb_eq in Hid. now rewrite Hid. }
  unfold set_doctors. simpl. rewrite negb_involutive, map_map.
  replace (map _ (doctors db)) with (doctors db); [now destruct db|].
  rewrite <- (map_id (doctors db)) at 1. apply map_ext_in.
  intros x Hin. unfold set_flag.
  destruct (Z.eqb_spec (Doctor.id x) j) as [E|E]; simpl.
  - rewrite E, Z.eqb_refl.
    pose proof (get_doctor_unique db j d x Hnd G Hin E) as ->.
    destruct d; simpl in *. now subst.
  - apply Z.eqb_neq in E. now rewrite E.
Qed.

Lemma search_subset ilike db arg_spec arg_name x :
  In x (patient_search_doctors ilike db arg_spec arg_name) ->
  In x (doctors db).
Proof.
  unfold patient_search_doctors. intros Hin.
  destruct (Py.truthy (Py.strip arg_name));
    [apply filter_In in Hin; destruct Hin as [Hin _]|];
    (destruct (Py.truthy (Py.strip arg_spec));
     [apply filter_In in Hin; destruct Hin as [Hin _]|]);
    apply filter_In in Hin; tauto.
Qed.

(** X14. Once an admin has blocked a doctor (the flag was not True and the
    toggle is committed), no row with that key comes out of the patients'
    doctor search, whatever the filters, nor of the list of the booking
    form. *)
Theorem X14_blocked_doctor_leaves_search
    (ilike : string -> string -> bool) (db : DB) (j : Z) (d : Doctor.t)
    (arg_spec arg_name : string) (x : Doctor.t) :
  get_doctor db j = Some d ->
  Doctor.is_blacklisted d <> Some true ->
  In x (patient_search_doctors ilike
          (snd (admin_toggle_doctor_blacklist db j true)) arg_spec arg_name)
  \/ In x (patient_book_appointment_get
             (snd (admin_toggle_doctor_blacklist db j true))) ->
  Doctor.id x <> j.
Proof.
  intros G Hb Hin.
  assert (Hx : In x (doctors (snd (admin_toggle_doctor_blacklist db j true)))
               /\ Doctor.is_blacklisted x = Some false).
  { destruct Hin as [Hin | Hin].
    - split; [exact (search_subset _ _ _ _ _ Hin)
             | exact (search_excludes_blacklisted _ _ _ _ _ Hin)].
    - split; [|exact (book_form_excludes_blacklisted _ _ Hin)].
      unfold patient_book_appointment_get in Hin.
      now apply filter_In in Hin. }
  destruct Hx as [Hd Hf].
  pose proof (toggle_doctor_result db j true) as T. rewrite G in T.
  rewrite T in Hd. simpl in Hd. apply in_map_iff in Hd.
  destruct Hd as [y [<- Hy]].
  destruct (Z.eqb_spec (Doctor.id y) j) as [E|E]; simpl in *; [|exact E].
  exfalso. destruct (Doctor.is_blacklisted d) as [[|]|]; simpl in Hf;
    congruence.
Qed.

(** ** The dashboard's week and the windows *)

Lemma date_le_iff (a b : Py.date) :
  Py.date_le a b = true <->
  Py.year a < Py.year b
  \/ (Py.year a = Py.year b
      /\ (Py.month a < Py.month b
          \/ (Py.month a = Py.month b /\ Py.day a <= Py.day b))).
Proof.
  unfold Py.date_le, Py.date_lt, Py.date_eqb.
  rewrite !orb_true_iff, !andb_true_iff, !orb_true_iff, !andb_true_iff,
    !Z.ltb_lt, !Z.eqb_eq. lia.
Qed.

Lemma date_le_trans (a b c : Py.date) :
  Py.date_le a b = true -> Py.date_le b c = true -> Py.date_le a c = true.
Proof.
  rewrite !date_le_iff. lia.
Qed.

(** X15. A window is registered only if both its dates fall in the week the
    doctor's dashboard shows on that day: today <= date <= today + 7. *)
Theorem X15_registered_window_is_in_next_week
    (db : DB) (doc_id : Z) (form : AvailForm) (today : Py.date) (ok : bool) :
  fst (doctor_add_availability db doc_id form today ok) = AvailabilitySet ->
  exists week_end,
    Py.date_add_days today 7 = Some week_end
    /\ in_next_week today week_end (Py.strip (form_start_date form)) = true
    /\ in_next_week today week_end (Py.strip (form_end_date form)) = true.
Proof.
  intros Hadd.
  destruct (add_availability_result db doc_id form today ok)
    as [[Hne _] | Hres]; [contradiction|].
  destruct (add_availability_accepts db doc_id form today ok _
              (f_equal snd Hres))
    as [week_end [Hmax [[s [en [Ps [Pe [D1 [D2 D3]]]]]] _]]].
  exists week_end. split; [exact Hmax|].
  assert (Hts : Py.date_le today s = true)
    by (rewrite date_le_not_lt, D1; reflexivity).
  unfold in_next_week. rewrite Ps, Pe. split; apply andb_true_intro; split;
    eauto using date_le_trans.
Qed.

(** ** Times as strings and times on the clock *)

Lemma digit_val_bounds c a : Py.digit_val c = Some a -> 0 <= a <= 9.
Proof.
  unfold Py.digit_val.
  destruct (Z.leb_spec 48 (Z.of_N (N_of_ascii c))),
    (Z.leb_spec (Z.of_N (N_of_ascii c)) 57); simpl; intros E;
    inversion E; lia.
Qed.

Lemma digit_val_compare c c' a a' :
  Py.digit_val c = Some a -> Py.digit_val c' = Some a' ->
  Ascii.compare c c' = (a ?= a').
Proof.
  unfold Py.digit_val, Ascii.compare.
  destruct (_ && _); [|discriminate]. destruct (_ && _); [|discriminate].
  intros H H'. inversion H; inversion H'; subst.
  rewrite <- N2Z.inj_compare.
  destruct (Z.compare_spec (Z.of_N (N_of_ascii c)) (Z.of_N (N_of_ascii c')));
    symmetry; [apply Z.compare_eq_iff | apply Z.compare_lt_iff
               | apply Z.compare_gt_iff]; lia.
Qed.

(** A string of five characters that [%H:%M] accepts is two digits, a
    colon and two digits. *)
Lemma strptime_time_padded (s : string) (t : Py.time) :
  String.length s = 5%nat ->
  Py.strptime_time s = Some t ->
  exists c1 c2 c3 c4 a b c d,
    s = String c1 (String c2 (String ":" (String c3 (String c4 ""))))
    /\ Py.digit_val c1 = Some a /\ Py.digit_val c2 = Some b
    /\ Py.digit_val c3 = Some c /\ Py.digit_val c4 = Some d
    /\ Py.hour t = 10 * a + b /\ Py.minute t = 10 * c + d.
Proof.
  intros Hlen.
  destruct s as [|c1 [|c2 [|c0 [|c3 [|c4 [|c5 s]]]]]]; try discriminate.
  clear Hlen.
  unfold Py.strptime_time, Py.full_match, Py.re_time, Py.re_H, Py.re_M,
    Py.m_alt, Py.m_two, Py.m_digit, Py.m_bind, Py.m_range, Py.m_lit,
    Py.m_ret.
  cbn [flat_map app].
  repeat (match goal with
          | |- context [match Py.digit_val ?x with _ => _ end] =>
              destruct (Py.digit_val x) eqn:?
          | |- context [Ascii.eqb ?x ?y] => destruct (Ascii.eqb_spec x y)
          | |- context [if ?x then _ else _] => destruct x eqn:?
          end; cbn [flat_map app]);
    try discriminate;
    intros E; injection E as <-; subst;
    do 8 eexists; repeat split; try eassumption; reflexivity.
Qed.

Lemma padded_times_lt
    (s1 s2 : string) (t1 t2 : Py.time) :
  String.length s1 = 5%nat -> String.length s2 = 5%nat ->
  Py.strptime_time s1 = Some t1 -> Py.strptime_time s2 = Some t2 ->
  Py.str_lt s1 s2 = Py.time_lt t1 t2.
Proof.
  intros L1 L2 P1 P2.
  destruct (strptime_time_padded s1 t1 L1 P1)
    as [c1 [c2 [c3 [c4 [a [b [c [d [-> [A [B [C [D [Hh Hm]]]]]]]]]]]]]].
  destruct (strptime_time_padded s2 t2 L2 P2)
    as [c1' [c2' [c3' [c4' [a' [b' [c' [d' [-> [A' [B' [C' [D' [Hh' Hm']]]]]]]]]]]]]].
  unfold Py.str_lt, String.ltb, Py.time_lt. rewrite Hh, Hm, Hh', Hm'.
  cbn [String.compare].
  rewrite (digit_val_compare _ _ _ _ A A'), (digit_val_compare _ _ _ _ B B'),
    (digit_val_compare _ _ _ _ C C'), (digit_val_compare _ _ _ _ D D').
  change (Ascii.compare ":" ":") with Eq.
  apply digit_val_bounds in A, B, C, D, A', B', C', D'.
  destruct (Z.compare_spec a a'), (Z.compare_spec b b'),
    (Z.compare_spec c c'), (Z.compare_spec d d');
    destruct (Z.ltb_spec (10 * a + b) (10 * a' + b')),
      (Z.eqb_spec (10 * a + b) (10 * a' + b')),
      (Z.ltb_spec (10 * c + d) (10 * c' + d'));
    simpl; try reflexivity; lia.
Qed.


(** ** Booking against zero-padded times *)


(** ** Logging in *)

Section AuthFacts.

Variable generate_password_hash : string -> string -> string.
Variable check_password_hash : string -> string -> bool.

Local Abbreviation login := (login_post check_password_hash).
Local Abbreviation register_patient :=
  (register_patient_post generate_password_hash).
Local Abbreviation register_doctor :=
  (register_doctor_post generate_password_hash).

(** X18. A login writes an identity into the session only for a stored
    user of the chosen role, found under the identifier as typed without
    surrounding blanks, whose stored hash checks against the password as
    typed, and, for a doctor or a patient, whose blacklist flag is not
    set. *)
Theorem X18_login_only_for_checked_users
    (acc : Accounts) (form : LoginForm) (who : Identity) :
  snd (login acc form) = Some who ->
  match who with
  | AdminId name =>
      login_role form = Some "admin"
      /\ exists u, In u (admins acc)
           /\ Admin.admin_username u = name
           /\ name = Py.strip (login_identifier form)
           /\ check_password_hash (Admin.password_hash u)
                (login_password form) = true
  | DoctorId i =>
      login_role form = Some "doctor"
      /\ exists u, In u (doctor_accounts acc)
           /\ doctor_key u = i
           /\ DoctorAccount.email u = Py.strip (login_identifier form)
           /\ Doctor.is_blacklisted (DoctorAccount.doctor u) <> Some true
           /\ check_password_hash (DoctorAccount.password_hash u)
                (login_password form) = true
  | PatientId i =>
      login_role form = Some "patient"
      /\ exists u, In u (patients acc)
           /\ Patient.id u = i
           /\ Patient.email u = Py.strip (login_identifier form)
           /\ Patient.is_blacklisted u <> Some true
           /\ check_password_hash (Patient.password_hash u)
                (login_password form) = true
  end.
Proof.
  unfold login_post.
  destruct (login_role form) as [ro|]; [|discriminate].
  destruct (_ || _); [discriminate|].
  destruct (String.eqb_spec ro "admin") as [->|Ha].
  { destruct (find _ (admins acc)) as [u|] eqn:F; [|discriminate].
    destruct (check_password_hash _ _) eqn:C; [|discriminate].
    simpl. intros E. inversion E; subst. split; [reflexivity|].
    apply find_some in F. destruct F as [Hin He].
    apply String.eqb_eq in He. exists u. repeat split; trivial. }
  destruct (String.eqb_spec ro "doctor") as [->|Hd].
  { destruct (find _ (doctor_accounts acc)) as [u|] eqn:F; [|discriminate].
    destruct (flag_set _) eqn:B; [discriminate|].
    destruct (check_password_hash _ _) eqn:C; [|discriminate].
    simpl. intros E. inversion E; subst. split; [reflexivity|].
    apply find_some in F. destruct F as [Hin He].
    apply String.eqb_eq in He. exists u. repeat split; trivial.
    intros Hb. rewrite Hb in B. discriminate. }
  destruct (String.eqb_spec ro "patient") as [->|Hp]; [|discriminate].
  destruct (find _ (patients acc)) as [u|] eqn:F; [|discriminate].
  destruct (flag_set _) eqn:B; [discriminate|].
  destruct (check_password_hash _ _) eqn:C; [|discriminate].
  simpl. intros E. inversion E; subst. split; [reflexivity|].
  apply find_some in F. destruct F as [Hin He].
  apply String.eqb_eq in He. exists u. repeat split; trivial.
  intros Hb. rewrite Hb in B. discriminate.
Qed.

(** What a registration that went through has stored. *)
Lemma register_patient_inv acc form salt ok :
  fst (register_patient acc form salt ok) = Registered ->
  Py.truthy (Py.strip (pf_email form)) = true
  /\ Py.truthy (Py.strip (pf_password form)) = true
  /\ find (fun u => (Patient.email u =? Py.strip (pf_email form))%string)
          (patients acc) = None
  /\ register_patient acc form salt ok
     = (Registered,
        mkAccounts (admins acc) (doctor_accounts acc)
          (patients acc ++
           [Patient.mk (next_id (map Patient.id (patients acc)))
              (Py.strip (pf_name form)) (Py.strip (pf_age form))
              (Py.strip (pf_gender form)) (Py.strip (pf_email form))
              (Py.strip (pf_phone form))
              (generate_password_hash salt (Py.strip (pf_password form)))
              (Some false)])).
Proof.
  unfold register_patient_post.
  destruct (Py.truthy (Py.strip (pf_name form))); [|discriminate].
  destruct (Py.truthy (Py.strip (pf_email form))); [|discriminate].
  destruct (Py.truthy (Py.strip (pf_password form))); [|discriminate].
  simpl. destruct (find _ (patients acc)); [discriminate|].
  destruct ok; [|discriminate]. intros _. repeat split.
Qed.

Lemma register_doctor_inv acc form salt ok :
  fst (register_doctor acc form salt ok) = Registered ->
  Py.truthy (Py.strip (df_email form)) = true
  /\ Py.truthy (Py.strip (df_password form)) = true
  /\ find (fun u =>
             (DoctorAccount.email u =? Py.strip (df_email form))%string)
          (doctor_accounts acc) = None
  /\ register_doctor acc form salt ok
     = (Registered,
        mkAccounts (admins acc)
          (doctor_accounts acc ++
           [DoctorAccount.mk
              (Doctor.mk
                 (next_id (map (fun u => Doctor.id (DoctorAccount.doctor u))
                               (doctor_accounts acc)))
                 (Py.strip (df_name form))
                 (Py.strip (df_specialization form)) (Some false))
              (Py.strip (df_email form)) (Py.strip (df_phone form))
              (generate_password_hash salt (Py.strip (df_password form)))])
          (patients acc)).
Proof.
  unfold register_doctor_post.
  destruct (Py.truthy (Py.strip (df_name form))); [|discriminate].
  destruct (Py.truthy (Py.strip (df_email form))); [|discriminate].
  destruct (Py.truthy (Py.strip (df_password form))); [|discriminate].
  simpl. destruct (find _ (doctor_accounts acc)); [discriminate|].
  destruct ok; [|discriminate]. intros _. repeat split.
Qed.

Lemma find_patient_map (g : Patient.t -> Patient.t) (p : Patient.t -> bool)
    (l : list Patient.t) :
  (forall x, p (g x) = p x) ->
  find p (map g l) = option_map g (find p l).
Proof.
  intros Hp. induction l as [|x l IH]; simpl; [reflexivity|].
  rewrite Hp. destruct (p x); [reflexivity | exact IH].
Qed.


(** X22. Registration keeps the patients' keys distinct and their email
    addresses distinct: an address already in the table is refused, and a
    new row gets a fresh key. *)
Theorem X22_patient_emails_stay_distinct
    (acc : Accounts) (form : PatientForm) (salt : string) (ok : bool) :
  NoDup (map Patient.id (patients acc)) ->
  patient_emails_distinct acc ->
  NoDup (map Patient.id
           (patients (snd (register_patient acc form salt ok))))
  /\ patient_emails_distinct (snd (register_patient acc form salt ok)).
Proof.
  unfold patient_emails_distinct. intros Hid Hem.
  unfold register_patient_post.
  destruct (_ || _); [now split|].
  destruct (find _ (patients acc)) eqn:F; [now split|].
  destruct ok; [|now split].
  simpl. rewrite !map_app. simpl. split; apply NoDup_snoc; trivial.
  - apply next_id_fresh.
  - intros Hin. apply in_map_iff in Hin. destruct Hin as [u [He Hu]].
    pose proof (find_none _ _ F u Hu) as Hn. simpl in Hn.
    rewrite He, String.eqb_refl in Hn. discriminate.
Qed.

(** The scheme checks the hashes it makes. *)
Hypothesis check_generated :
  forall salt password,
    check_password_hash (generate_password_hash salt password) password
    = true.

(** X19. A patient who has just registered can log in: with the email as
    typed at registration and the password typed there without its
    surrounding blanks (registration trims the password, login does not),
    the login answers PatientLoginOk and writes the key of the new row. *)
Theorem X19_registered_patient_can_log_in
    (acc : Accounts) (form : PatientForm) (salt : string) (ok : bool) :
  fst (register_patient acc form salt ok) = Registered ->
  login (snd (register_patient acc form salt ok))
    (mkLoginForm (Some "patient") (pf_email form)
       (Py.strip (pf_password form)))
  = (PatientLoginOk,
     Some (PatientId (next_id (map Patient.id (patients acc))))).
Proof.
  intros Hreg.
  destruct (register_patient_inv acc form salt ok Hreg)
    as [Te [Tp [F ->]]].
  unfold login_post. simpl. rewrite Te, Tp. simpl.
  rewrite find_snoc, F. simpl. rewrite String.eqb_refl. simpl.
  now rewrite check_generated.
Qed.

(** X20. A doctor an admin has just registered can log in, in the same
    way. *)
Theorem X20_registered_doctor_can_log_in
    (acc : Accounts) (form : DoctorForm) (salt : string) (ok : bool) :
  fst (register_doctor acc form salt ok) = Registered ->
  login (snd (register_doctor acc form salt ok))
    (mkLoginForm (Some "doctor") (df_email form)
       (Py.strip (df_password form)))
  = (DoctorLoginOk,
     Some (DoctorId (next_id (map doctor_key (doctor_accounts acc))))).
Proof.
  intros Hreg.
  destruct (register_doctor_inv acc form salt ok Hreg)
    as [Te [Tp [F ->]]].
  unfold login_post. simpl. rewrite Te, Tp. simpl.
  rewrite find_snoc, F. simpl. rewrite String.eqb_refl. simpl.
  now rewrite check_generated.
Qed.

End AuthFacts.

(** ** Doctors' accounts *)

Lemma doctor_key_unique (acc : Accounts) (j : Z) (d a : DoctorAccount.t) :
  NoDup (map doctor_key (doctor_accounts acc)) ->
  find (fun u => Doctor.id (DoctorAccount.doctor u) =? j)
       (doctor_accounts acc) = Some d ->
  In a (doctor_accounts acc) -> doctor_key a = j -> a = d.
Proof.
  intros Hnd F Hin Hk. apply find_some in F. destruct F as [Hin' Hk'].
  apply Z.eqb_eq in Hk'.
  apply (NoDup_map_eq doctor_key (doctor_accounts acc)); try assumption.
  unfold doctor_key in *. congruence.
Qed.

(** X23. Registering a doctor and editing a doctor keep the doctors' keys
    distinct and no two doctors under one email address: the address of a
    new doctor, or a changed address, is refused when another row has it,
    and an edit never changes a key. *)
Theorem X23_doctor_emails_stay_distinct
    (generate_password_hash : string -> string -> string)
    (acc : Accounts) (form : DoctorForm) (salt : string) (doc_id : Z)
    (ok : bool) :
  doctor_emails_distinct acc ->
  doctor_emails_distinct
    (snd (register_doctor_post generate_password_hash acc form salt ok))
  /\ doctor_emails_distinct (snd (admin_edit_doctor_post acc doc_id form ok)).
Proof.
  unfold doctor_emails_distinct. intros [Hk He]. split.
  - (* register *)
    unfold register_doctor_post.
    destruct (_ || _); [now split|].
    destruct (find _ (doctor_accounts acc)) eqn:F; [now split|].
    destruct ok; [|now split].
    simpl. split.
    + rewrite map_app. simpl. apply NoDup_snoc; trivial.
      apply next_id_fresh.
    + intros a b Ha Hb Hab.
      apply in_app_or in Ha. apply in_app_or in Hb.
      destruct Ha as [Ha | [<- | []]], Hb as [Hb | [<- | []]];
        simpl in *; trivial.
      * now apply He.
      * exfalso. pose proof (find_none _ _ F a Ha) as Hn. simpl in Hn.
        rewrite Hab, String.eqb_refl in Hn. discriminate.
      * exfalso. pose proof (find_none _ _ F b Hb) as Hn. simpl in Hn.
        rewrite <- Hab, String.eqb_refl in Hn. discriminate.
  - (* edit *)
    unfold admin_edit_doctor_post.
    destruct (find _ (doctor_accounts acc)) as [d|] eqn:G; [|now split].
    destruct (_ || _); [now split|].
    destruct (String.eqb_spec (Py.strip (df_email form))
                              (DoctorAccount.email d)) as [Esame|Ediff];
      simpl negb; cbv iota.
    + (* the address is kept *)
      destruct ok; [|now split]. simpl. split.
      * rewrite map_map. erewrite map_ext; [exact Hk|].
        intros u. unfold doctor_key.
        now destruct (Doctor.id (DoctorAccount.doctor u) =? doc_id).
      * intros a' b' Ha Hb Hab.
        apply in_map_iff in Ha. destruct Ha as [a [<- Ha]].
        apply in_map_iff in Hb. destruct Hb as [b [<- Hb]].
        assert (Hkey : forall u,
                   doctor_key
                     (if Doctor.id (DoctorAccount.doctor u) =? doc_id
                      then DoctorAccount.mk
                             (Doctor.mk (Doctor.id (DoctorAccount.doctor u))
                                (Py.strip (df_name form))
                                (Py.strip (df_specialization form))
                                (Doctor.is_blacklisted
                                   (DoctorAccount.doctor u)))
                             (Py.strip (df_email form))
                             (Py.strip (df_phone form))
                             (DoctorAccount.password_hash u)
                      else u) = doctor_key u).
        { intros u. unfold doctor_key.
          now destruct (Doctor.id (DoctorAccount.doctor u) =? doc_id). }
        rewrite !Hkey. apply He; trivial.
        revert Hab.
        destruct (Z.eqb_spec (Doctor.id (DoctorAccount.doctor a)) doc_id)
          as [Ka|Ka],
          (Z.eqb_spec (Doctor.id (DoctorAccount.doctor b)) doc_id)
          as [Kb|Kb]; simpl; intros Hab;
          try rewrite (doctor_key_unique acc doc_id d a Hk G Ha Ka) in *;
          try rewrite (doctor_key_unique acc doc_id d b Hk G Hb Kb) in *;
          congruence.
    + (* the address changes *)
      destruct (find (fun u => (DoctorAccount.email u
                                =? Py.strip (df_email form))%string)
                     (doctor_accounts acc)) eqn:F; [now split|].
      destruct ok; [|now split]. simpl. split.
      * rewrite map_map. erewrite map_ext; [exact Hk|].
        intros u. unfold doctor_key.
        now destruct (Doctor.id (DoctorAccount.doctor u) =? doc_id).
      * intros a' b' Ha Hb Hab.
        apply in_map_iff in Ha. destruct Ha as [a [<- Ha]].
        apply in_map_iff in Hb. destruct Hb as [b [<- Hb]].
        revert Hab. unfold doctor_key.
        destruct (Z.eqb_spec (Doctor.id (DoctorAccount.doctor a)) doc_id)
          as [Ka|Ka],
          (Z.eqb_spec (Doctor.id (DoctorAccount.doctor b)) doc_id)
          as [Kb|Kb]; simpl; intros Hab.
        -- congruence.
        -- exfalso. pose proof (find_none _ _ F b Hb) as Hn. simpl in Hn.
           rewrite <- Hab, String.eqb_refl in Hn. discriminate.
        -- exfalso. pose proof (find_none _ _ F a Ha) as Hn. simpl in Hn.
           rewrite Hab, String.eqb_refl in Hn. discriminate.
        -- now apply He.
Qed.

(** ** Treatments *)

Lemma find_treatment_map (g : Treatment.t -> Treatment.t) (j : Z)
    (l : list Treatment.t) :
  (forall x, Treatment.appointment_id (g x) = Treatment.appointment_id x) ->
  find (fun t => Treatment.appointment_id t =? j) (map g l)
  = option_map g (find (fun t => Treatment.appointment_id t =? j) l).
Proof.
  intros Hp. induction l as [|x l IH]; simpl; [reflexivity|].
  rewrite Hp. destruct (Treatment.appointment_id x =? j);
    [reflexivity | exact IH].
Qed.

(** X24. Saving a treatment keeps the treatments' keys distinct and at most
    one treatment per appointment: a second save for an appointment
    rewrites the record that is there. *)
Theorem X24_one_treatment_per_appointment
    (db : DB) (ts : list Treatment.t) (doc_id appt_id : Z)
    (form : TreatmentForm) (ok : bool) :
  one_treatment_each ts ->
  one_treatment_each
    (snd (doctor_add_treatment_post db ts doc_id appt_id form ok)).
Proof.
  unfold one_treatment_each. intros [Hid Hap].
  unfold doctor_add_treatment_post.
  destruct (get_appointment db appt_id); [|now split].
  destruct (negb _); [now split|].
  destruct (negb (Py.truthy _)); [now split|].
  destruct ok; [|now split]. simpl.
  unfold treatment_of.
  destruct (find _ ts) as [tr|] eqn:F.
  - rewrite !map_map. split.
    + erewrite map_ext; [exact Hid|]. intros x.
      now destruct (Treatment.id x =? Treatment.id tr).
    + erewrite map_ext; [exact Hap|]. intros x.
      now destruct (Treatment.id x =? Treatment.id tr).
  - rewrite !map_app. simpl. split; apply NoDup_snoc; trivial.
    + apply next_id_fresh.
    + intros Hin. apply in_map_iff in Hin. destruct Hin as [u [He Hu]].
      pose proof (find_none _ _ F u Hu) as Hn. simpl in Hn.
      rewrite He, Z.eqb_refl in Hn. discriminate.
Qed.

(** X25. What the doctor saved is what the patient sees: after a save is
    committed, the treatment view of the appointment's patient shows the
    appointment with a record that carries the diagnosis, prescription and
    notes as sent, without their surrounding blanks. *)
Theorem X25_saved_treatment_is_shown
    (db : DB) (ts : list Treatment.t) (doc_id appt_id : Z)
    (form : TreatmentForm) (appt : Appointment.t) :
  get_appointment db appt_id = Some appt ->
  fst (doctor_add_treatment_post db ts doc_id appt_id form true)
  = TreatmentSaved ->
  exists t,
    patient_view_treatment db
      (snd (doctor_add_treatment_post db ts doc_id appt_id form true))
      (Appointment.patient_id appt) appt_id
    = ViewRendered appt (Some t)
    /\ Treatment.appointment_id t = appt_id
    /\ Treatment.diagnosis t = Py.strip (tf_diagnosis form)
    /\ Treatment.prescription t = Py.strip (tf_prescription form)
    /\ Treatment.notes t = Py.strip (tf_notes form).
Proof.
  intros G. unfold patient_view_treatment, doctor_add_treatment_post.
  rewrite G, Z.eqb_refl. simpl negb. cbv iota.
  destruct (negb (Appointment.doctor_id appt =? doc_id)); [discriminate|].
  destruct (negb (Py.truthy _)); [discriminate|].
  simpl. intros _. unfold treatment_of.
  destruct (find _ ts) as [tr|] eqn:F.
  - rewrite find_treatment_map, F.
    + simpl. rewrite Z.eqb_refl. eexists. split; [reflexivity|]. simpl.
      apply find_some in F. destruct F as [_ F]. apply Z.eqb_eq in F.
      tauto.
    + intros x. now destruct (Treatment.id x =? Treatment.id tr).
  - rewrite find_snoc, F. simpl. rewrite Z.eqb_refl.
    eexists. split; [reflexivity|]. simpl. tauto.
Qed.

(** ** What an accepted booking has passed *)

(** X26. A booking is accepted only inside the doctor's first window: the
    date parses and lies between the window's dates, ends included, and the
    time string lies between the window's time strings, ends included. *)
Theorem X26_accepted_booking_is_inside_the_window
    (db : DB) (pat_id : Z) (form : BookForm) (ok : bool) :
  fst (patient_book_appointment_post db pat_id form ok) = Accept ->
  exists doc_id did bd avail avail_start avail_end,
    form_doctor_id form = Some doc_id
    /\ Py.int doc_id = Some did
    /\ Py.strptime_date (Py.strip (form_date form)) = Some bd
    /\ first_window db did = Some avail
    /\ Py.strptime_date (DoctorAvailability.start_date avail)
       = Some avail_start
    /\ Py.strptime_date (DoctorAvailability.end_date avail) = Some avail_end
    /\ Py.date_le avail_start bd = true
    /\ Py.date_le bd avail_end = true
    /\ String.leb (DoctorAvailability.start_time avail)
         (Py.strip (form_time form)) = true
    /\ String.leb (Py.strip (form_time form))
         (DoctorAvailability.end_time avail) = true.
Proof.
  intros Hacc.
  destruct (book_accept_inv db pat_id form ok Hacc)
    as [doc_id [did [Hd [_ [Hc [_ [_ [Hi _]]]]]]]].
  unfold check_availability in Hc. rewrite Hi in Hc.
  destruct (Py.strptime_date (Py.strip (form_date form))) as [bd|] eqn:Hbd;
    [|discriminate].
  simpl in Hc.
  destruct (find _ (availability db)) as [avail|] eqn:F;
    [|destruct (in_int64 did); discriminate].
  destruct (Py.strptime_date (DoctorAvailability.start_date avail))
    as [s|] eqn:Ps; [|discriminate].
  destruct (Py.strptime_date (DoctorAvailability.end_date avail))
    as [e|] eqn:Pe; [|discriminate].
  simpl in Hc.
  destruct (Py.date_le s bd) eqn:D1; [|discriminate].
  destruct (Py.date_le bd e) eqn:D2; [|discriminate].
  simpl in Hc. rewrite str_lt_not_leb, str_gt_not_leb in Hc.
  destruct (String.leb (DoctorAvailability.start_time avail)
                       (Py.strip (form_time form))) eqn:L1; [|discriminate].
  destruct (String.leb (Py.strip (form_time form))
                       (DoctorAvailability.end_time avail)) eqn:L2;
    [|discriminate].
  exists doc_id, did, bd, avail, s, e. repeat split; trivial.
Qed.

(** ** The properties of the store, on the sample data *)

Lemma distinct_ids_sample (st : string) : distinct_ids (db_with st).
Proof.
  unfold distinct_ids. simpl. constructor; [simpl; tauto | constructor].
Defined.

Lemma distinct_window_ids_sample (st : string) :
  distinct_window_ids (db_with st).
Proof.
  unfold distinct_window_ids. simpl.
  constructor; [simpl; intros [H | []]; discriminate|].
  constructor; [simpl; tauto | constructor].
Defined.

Lemma one_row_per_slot_sample (st : string) : no_double_booking (db_with st).
Proof.
  intros a b [<- | []] [<- | []] _ _ _. reflexivity.
Defined.

Lemma one_row_per_patient_sample (st : string) :
  no_patient_clash (db_with st).
Proof.
  intros a b [<- | []] [<- | []] _ _ _. reflexivity.
Defined.

Lemma registry_ok_sample : registry_ok db0.
Proof.
  intros w [<- | [<- | []]];
    exists (Py.mkdate 2024 6 1), (Py.mkdate 2024 6 7),
      (Py.mktime 9 0), (Py.mktime 17 0); repeat split.
Defined.

Lemma X1_rollback_on_sample :
  snd (handle db0 (no_commit "patient" 5)
         (BookAppointment (req "1" "2024-06-05" "10:00"))) = db0.
Proof.
  apply X1_failed_commit_changes_nothing. reflexivity.
Defined.

Lemma X2_patient_cannot_update_status :
  handle (db_with "Booked") (as_role "patient" 5)
    (AdminUpdateStatus 1 (Some "Completed"))
  = (AccessDenied, db_with "Booked").
Proof.
  apply X2_other_role_is_denied. simpl. discriminate.
Defined.

Lemma X3_ledger_after_booking_and_reschedule :
  distinct_ids
    (run (db_with "Booked")
       [(as_role "patient" 6, BookAppointment (req "1" "2024-06-06" "10:00"));
        (as_role "patient" 5, RescheduleAppointment 1 "2024-06-06" "10:00")])
  /\ no_double_booking
       (run (db_with "Booked")
          [(as_role "patient" 6,
            BookAppointment (req "1" "2024-06-06" "10:00"));
           (as_role "patient" 5,
            RescheduleAppointment 1 "2024-06-06" "10:00")]).
Proof.
  apply X3_no_double_booking_is_invariant.
  - intros e r Hin. simpl in Hin.
    destruct Hin as [E | [E | []]]; inversion E; reflexivity.
  - apply distinct_ids_sample.
  - apply one_row_per_slot_sample.
Defined.

Lemma X4_patients_after_booking :
  no_patient_clash
    (run (db_with "Booked")
       [(as_role "patient" 5, BookAppointment (req "2" "2024-06-05" "10:00"));
        (as_role "patient" 5, CancelAppointment 1)]).
Proof.
  apply X4_no_patient_clash_without_reschedule.
  - apply one_row_per_patient_sample.
  - intros e r [H | [H | []]]; inversion H; reflexivity.
Defined.

Lemma X5_cancelled_row_keeps_its_parties :
  exists a',
    get_appointment
      (run (db_with "Booked") [(as_role "patient" 5, CancelAppointment 1)]) 1
    = Some a'
    /\ same_booking (appt_with "Booked") a'.
Proof.
  apply X5_appointments_keep_their_parties. reflexivity.
Defined.

Lemma X6_other_patient_cannot_cancel :
  In (appt_with "Booked")
     (appointments
        (snd (handle (db_with "Booked") (as_role "patient" 6)
                (CancelAppointment 1)))).
Proof.
  apply X6_patient_cannot_touch_others.
  - reflexivity.
  - apply distinct_ids_sample.
  - simpl. left. reflexivity.
  - simpl. discriminate.
Defined.

Lemma X7_other_doctor_cannot_complete_or_delete :
  (forall a, In a (appointments (db_with "Booked")) ->
             Appointment.doctor_id a <> 2 ->
             In a (appointments
                     (snd (handle (db_with "Booked") (as_role "doctor" 2)
                             (DoctorUpdateStatus 1 (Some "Completed"))))))
  /\ (forall w, In w (availability (db_with "Booked")) ->
                DoctorAvailability.doctor_id w <> 2 ->
                In w (availability
                        (snd (handle (db_with "Booked") (as_role "doctor" 2)
                                (DoctorUpdateStatus 1 (Some "Completed")))))).
Proof.
  apply (X7_doctor_cannot_touch_others (db_with "Booked")
           (as_role "doctor" 2) (DoctorUpdateStatus 1 (Some "Completed"))).
  - reflexivity.
  - apply distinct_ids_sample.
  - apply distinct_window_ids_sample.
Defined.

Lemma X8_second_window_changes_no_answer :
  fst (patient_book_appointment_post
         (snd (doctor_add_availability db0 1
                 (avail_req "2024-06-06" "2024-06-08" "08:00" "12:00")
                 today0 true))
         5 (req "1" "2024-06-08" "10:00") true)
  = fst (patient_book_appointment_post db0 5
           (req "1" "2024-06-08" "10:00") true).
Proof.
  apply X8_further_window_is_not_consulted.
  intros doc _ _. vm_compute. discriminate.
Defined.

Lemma X9_window_added_and_deleted :
  doctor_delete_availability
    (snd (doctor_add_availability db0 1 week_form today0 true)) 1
    (next_id (map DoctorAvailability.id (availability db0))) true
  = (AvailabilityDeleted, db0).
Proof.
  apply X9_add_then_delete_window. reflexivity.
Defined.

Lemma X10_registry_after_a_registration :
  registry_ok (run db0 [(as_role "doctor" 1, AddAvailability week_form)]).
Proof.
  apply X10_registry_stays_well_formed. apply registry_ok_sample.
Defined.


Lemma X12_double_click :
  patient_book_appointment_post
    (snd (patient_book_appointment_post db0 5
            (req "1" "2024-06-05" "10:00") true))
    6 (req "1" "2024-06-05" "10:00") true
  = (SlotTaken,
     snd (patient_book_appointment_post db0 5
            (req "1" "2024-06-05" "10:00") true)).
Proof.
  apply X12_second_submission_is_slot_taken; reflexivity.
Defined.

Lemma X13_block_and_unblock :
  snd (admin_toggle_doctor_blacklist
         (snd (admin_toggle_doctor_blacklist db0 1 true)) 1 true)
  = db0.
Proof.
  apply (X13_toggle_twice_restores db0 1
           (Doctor.mk 1 "Dr. John Smith" "Cardiology" (Some false)) false).
  - unfold distinct_doctor_ids. simpl.
    constructor; [simpl; intros [H | []]; discriminate|].
    constructor; [simpl; tauto | constructor].
  - reflexivity.
  - reflexivity.
Defined.

Lemma X14_only_the_other_doctor_is_offered :
  Doctor.id (Doctor.mk 2 "Dr. Sarah Jones" "Neurology" (Some false)) <> 1.
Proof.
  apply (X14_blocked_doctor_leaves_search (fun _ _ => true) db0 1
           (Doctor.mk 1 "Dr. John Smith" "Cardiology" (Some false)) "" "").
  - reflexivity.
  - discriminate.
  - right. simpl. left. reflexivity.
Defined.

Lemma X15_week_form_is_in_the_week :
  exists week_end,
    Py.date_add_days today0 7 = Some week_end
    /\ in_next_week today0 week_end (Py.strip (form_start_date week_form))
       = true
    /\ in_next_week today0 week_end (Py.strip (form_end_date week_form))
       = true.
Proof.
  apply (X15_registered_window_is_in_next_week db0 1 week_form today0 true).
  reflexivity.
Defined.



Lemma X18_admin_logs_in_as_admin :
  login_role (mkLoginForm (Some "admin") " admin " "admin123")
  = Some "admin".
Proof.
  exact (proj1 (X18_login_only_for_checked_users plain_check acc0
                  (mkLoginForm (Some "admin") " admin " "admin123")
                  (AdminId "admin") eq_refl)).
Defined.

Lemma X19_new_patient_logs_in :
  login_post plain_check
    (snd (register_patient_post plain_hash acc0 new_patient "salt" true))
    (mkLoginForm (Some "patient") (pf_email new_patient)
       (Py.strip (pf_password new_patient)))
  = (PatientLoginOk,
     Some (PatientId (next_id (map Patient.id (patients acc0))))).
Proof.
  apply (X19_registered_patient_can_log_in plain_hash plain_check).
  - intros salt password. apply String.eqb_refl.
  - reflexivity.
Defined.

Lemma X20_new_doctor_logs_in :
  login_post plain_check
    (snd (register_doctor_post plain_hash acc0 new_doctor "salt" true))
    (mkLoginForm (Some "doctor") (df_email new_doctor)
       (Py.strip (df_password new_doctor)))
  = (DoctorLoginOk,
     Some (DoctorId (next_id (map doctor_key (doctor_accounts acc0))))).
Proof.
  apply (X20_registered_doctor_can_log_in plain_hash plain_check).
  - intros salt password. apply String.eqb_refl.
  - reflexivity.
Defined.


Lemma X22_patients_after_a_registration :
  NoDup (map Patient.id
           (patients
              (snd (register_patient_post plain_hash acc0 new_patient
                      "salt" true))))
  /\ patient_emails_distinct
       (snd (register_patient_post plain_hash acc0 new_patient "salt" true)).
Proof.
  apply X22_patient_emails_stay_distinct.
  - simpl. constructor; [simpl; tauto | constructor].
  - unfold patient_emails_distinct. simpl.
    constructor; [simpl; tauto | constructor].
Defined.

Lemma X23_doctors_after_registration_and_edit :
  doctor_emails_distinct
    (snd (register_doctor_post plain_hash acc0 new_doctor "salt" true))
  /\ doctor_emails_distinct
       (snd (admin_edit_doctor_post acc0 1 new_doctor true)).
Proof.
  apply X23_doctor_emails_stay_distinct.
  unfold doctor_emails_distinct. simpl. split.
  - constructor; [simpl; tauto | constructor].
  - intros a b [<- | []] [<- | []] _. reflexivity.
Defined.

Lemma X24_first_treatment :
  one_treatment_each
    (snd (doctor_add_treatment_post (db_with "Completed") [] 1 1 flu true)).
Proof.
  apply X24_one_treatment_per_appointment.
  unfold one_treatment_each. simpl. split; constructor.
Defined.

Lemma X25_patient_sees_the_flu :
  exists t,
    patient_view_treatment (db_with "Completed")
      (snd (doctor_add_treatment_post (db_with "Completed") [] 1 1 flu true))
      (Appointment.patient_id (appt_with "Completed")) 1
    = ViewRendered (appt_with "Completed") (Some t)
    /\ Treatment.appointment_id t = 1
    /\ Treatment.diagnosis t = Py.strip (tf_diagnosis flu)
    /\ Treatment.prescription t = Py.strip (tf_prescription flu)
    /\ Treatment.notes t = Py.strip (tf_notes flu).
Proof.
  apply (X25_saved_treatment_is_shown (db_with "Completed") [] 1 1 flu
           (appt_with "Completed")); reflexivity.
Defined.

Lemma X26_sample_booking_is_inside :
  exists doc_id did bd avail avail_start avail_end,
    form_doctor_id (req "1" "2024-06-05" "10:00") = Some doc_id
    /\ Py.int doc_id = Some did
    /\ Py.strptime_date (Py.strip (form_date (req "1" "2024-06-05" "10:00")))
       = Some bd
    /\ first_window db0 did = Some avail
    /\ Py.strptime_date (DoctorAvailability.start_date avail)
       = Some avail_start
    /\ Py.strptime_date (DoctorAvailability.end_date avail) = Some avail_end
    /\ Py.date_le avail_start bd = true
    /\ Py.date_le bd avail_end = true
    /\ String.leb (DoctorAvailability.start_time avail)
         (Py.strip (form_time (req "1" "2024-06-05" "10:00"))) = true
    /\ String.leb (Py.strip (form_time (req "1" "2024-06-05" "10:00")))
         (DoctorAvailability.end_time avail) = true.
Proof.
  apply (X26_accepted_booking_is_inside_the_window db0 5
           (req "1" "2024-06-05" "10:00") true).
  reflexivity.
Defined.
